(** * h5features: the Writer and the legacy top-level API

    A shallow embedding of
    - [src/h5features2/writer.py] (class [Writer]) and
    - [src/h5features/h5features.py] ([read], [write], [simple_write]).

    Python floats are binary64 numbers, modelled by Rocq's primitive
    floats.  An HDF5 file is a finite map from group names to groups, a
    group carries string attributes and named datasets.  Exceptions are
    values of [Exn]; stateful code runs in a state-and-exception monad
    whose state also records the mutating calls made on the file, in
    order. *)

From Stdlib Require Import PrimFloat ZArith.
From stdpp Require Import gmap strings list.

Set Default Proof Using "Type".
Set Warnings "-inexact-float".
Local Open Scope string_scope.
Local Open Scope list_scope.
Local Open Scope Z_scope.

(** ** Python exceptions and results *)

Module Py.

Inductive Exn : Type :=
| IOError (msg : string)
| KeyError (key : string)
| ValidationError (msg : string)
| NotImplementedError (msg : string)
| ValueError (msg : string).

Inductive result (A : Type) : Type :=
| Ok (a : A)
| Raise (e : Exn).
Arguments Ok {A} a.
Arguments Raise {A} e.

Definition rbind {A B} (r : result A) (k : A -> result B) : result B :=
  match r with
  | Ok a => k a
  | Raise e => Raise e
  end.

(** [[f(x) for f in fs]]: the calls are made left to right and the first
    exception escapes. *)
Fixpoint comprehension {A B} (x : A) (fs : list (A -> result B))
  : result (list B) :=
  match fs with
  | [] => Ok []
  | f :: fs' =>
      rbind (f x) (fun b => rbind (comprehension x fs') (fun bs => Ok (b :: bs)))
  end.

(** Python's builtin [all] on a list of booleans. *)
Definition all (bs : list bool) : bool := forallb (fun b => b) bs.

(** A [dict] with string keys keeps its keys in insertion order; setting
    a key that is present replaces the value where the key stands. *)
Fixpoint dict_set {V} (k : string) (v : V) (d : list (string * V))
  : list (string * V) :=
  match d with
  | [] => [(k, v)]
  | (k', v') :: d' =>
      if String.eqb k' k then (k', v) :: d' else (k', v') :: dict_set k v d'
  end.

(** [dict(pairs)] *)
Definition dict {V} (pairs : list (string * V)) : list (string * V) :=
  foldl (fun d kv => dict_set kv.1 kv.2 d) [] pairs.

End Py.
Export Py.

(** ** numpy arrays of rank 1 or 2 *)

Module Numpy.

Inductive ndarray : Type :=
| Array1D (xs : list float)
| Array2D (ncols : nat) (lines : list (list float)).

(** [a.shape[0]] *)
Definition nrows (a : ndarray) : nat :=
  match a with
  | Array1D xs => length xs
  | Array2D _ lines => length lines
  end.

(** [a[lo:hi]] for offsets counted from the start. *)
Definition slice (lo hi : nat) (a : ndarray) : ndarray :=
  match a with
  | Array1D xs => Array1D (take (hi - lo) (drop lo xs))
  | Array2D n lines => Array2D n (take (hi - lo) (drop lo lines))
  end.

(** Rows of [b] added after the rows of [a]; the shapes have to agree. *)
Definition concatenate (a b : ndarray) : result ndarray :=
  match a, b with
  | Array1D xs, Array1D ys => Ok (Array1D (xs ++ ys))
  | Array2D n ls, Array2D m ms =>
      if decide (n = m) then Ok (Array2D n (ls ++ ms))
      else Raise (ValueError "shapes do not match")
  | _, _ => Raise (ValueError "ranks do not match")
  end.

End Numpy.
Export Numpy.

(** ** The storage engine: files, groups, datasets *)

Module Hdf5.

Inductive Content : Type :=
| Strings (l : list string)
| Offsets (l : list nat)
| Floats (a : ndarray).

(** A dataset is its content; how the engine lays it out in chunks on
    disk is not represented. *)
Abbreviation Dataset := Content.

Record Group : Type := mkGroup {
  attrs : gmap string string;
  datasets : gmap string Dataset
}.

Definition empty_group : Group := mkGroup ∅ ∅.

(** [d in group] *)
Definition contains (group : Group) (d : string) : bool :=
  bool_decide (is_Some (datasets group !! d)).

(** [group.attrs[key]] raises [KeyError] on a missing attribute. *)
Definition attr (group : Group) (key : string) : result string :=
  match attrs group !! key with
  | Some v => Ok v
  | None => Raise (KeyError key)
  end.

Definition set_attr (key value : string) (group : Group) : Group :=
  mkGroup (<[key := value]> (attrs group)) (datasets group).

Abbreviation H5File := (gmap string Group).

(** A regular file on disk either holds an HDF5 tree or something else. *)
Inductive FileObj : Type :=
| NotHdf5
| IsHdf5 (groups : H5File).

Abbreviation FS := (gmap string FileObj).

(** [os.path.isfile] and [h5py.is_hdf5] *)
Definition isfile (fs : FS) (filename : string) : bool :=
  bool_decide (is_Some (fs !! filename)).

Definition is_hdf5 (fs : FS) (filename : string) : bool :=
  match fs !! filename with
  | Some (IsHdf5 _) => true
  | _ => false
  end.

(** The tree found in [filename] when it is opened for appending: empty
    when the file has just been created. *)
Definition opened (fs : FS) (filename : string) : H5File :=
  match fs !! filename with
  | Some (IsHdf5 h5file) => h5file
  | _ => ∅
  end.

End Hdf5.
Export Hdf5.

(** ** Mutating calls, and the monad that records them *)

Module Effects.

Inductive Event : Type :=
| CreateGroup (groupname : string)
| SetAttr (groupname key value : string)
| FeaturesCreate (chunk_size : float)
| TimesCreate (nb_in_chunks : Z)
| ItemsCreate (nb_lines_by_chunk : Z)
| IndexCreate (chunk_size : float)
| IndexWrite
| ItemsWrite
| FeaturesWrite
| TimesWrite.

Definition is_dataset_write (ev : Event) : bool :=
  match ev with
  | IndexWrite | ItemsWrite | FeaturesWrite | TimesWrite => true
  | _ => false
  end.

Record St (S : Type) : Type := mkSt {
  obj : S;
  trace : list Event
}.
Arguments mkSt {S} obj trace.
Arguments obj {S} s.
Arguments trace {S} s.

Definition Mon (S A : Type) : Type := St S -> St S * result A.

Definition ret {S A} (a : A) : Mon S A := fun s => (s, Ok a).

Definition raise {S A} (e : Exn) : Mon S A := fun s => (s, Raise e).

Definition bind {S A B} (m : Mon S A) (k : A -> Mon S B) : Mon S B :=
  fun s =>
    match m s with
    | (s', Ok a) => k a s'
    | (s', Raise e) => (s', Raise e)
    end.

Definition lift {S A} (r : result A) : Mon S A := fun s => (s, r).

Definition get {S} : Mon S S := fun s => (s, Ok (obj s)).

(** A mutating call: the event is recorded, then the call acts on the
    state; what it did before raising stays done. *)
Definition call {S A} (ev : Event) (h : S -> S * result A) : Mon S A :=
  fun s =>
    let '(o, r) := h (obj s) in (mkSt o (trace s ++ [ev]), r).

#[export] Instance Mon_ret {S} : MRet (Mon S) := @ret S.
#[export] Instance Mon_bind {S} : MBind (Mon S) := fun A B k m => bind m k.

End Effects.
Export Effects.

(** ** The objects handed to the Writer

    The classes [Items], [Times], [Features] and [Index] live in modules
    of the package that are imported by the Writer.  An object is the
    record of what the Writer uses of it: its attributes and its methods,
    a method acting on the group it is given. *)

Module Objects.

Record Items : Type := mkItems {
  items_data : list string;
  items_name : string;
  items_is_compatible : Group -> result bool;
  items_create : Z -> Group -> Group * result unit;
  items_write : Group -> Group * result unit
}.

Record Times : Type := mkTimes {
  times_data : list ndarray;
  times_name : string;
  times_is_compatible : Group -> result bool;
  times_create : Z -> Group -> Group * result unit;
  times_write : Group -> Group * result unit
}.

Record Features : Type := mkFeatures {
  features_data : list ndarray;
  features_name : string;
  dformat : string;
  features_create : float -> Group -> Group * result Z;
  features_write : Group -> Group * result unit
}.

Record Index : Type := mkIndex {
  index_name : string;
  index_create : float -> Group -> Group * result unit;
  index_write : Items -> Features -> Group -> Group * result unit
}.

(** The dictionary [data] with its three keys. *)
Record Data : Type := mkData {
  items : Items;
  times : Times;
  features : Features
}.

(** Modelled from the spec: [Features.is_compatible] (the module defining
    the Feature Store is not under src/).  The spec's compatibility check
    (b): the group's declared storage mode, its [format] attribute, matches
    the mode of the new data. *)
Definition Features_is_compatible (self : Features) (group : Group)
  : result bool :=
  rbind (attr group "format") (fun f => Ok (String.eqb f (dformat self))).

End Objects.
Export Objects.

(** ** [h5features2/writer.py] *)

Module H5features2.

(** What writer.py imports from the package: [chunk.nb_lines] and the
    constructor [Index()]. *)
Class Imports : Type := {
  nb_lines : Z -> Z -> float -> Z;
  Index_new : Index
}.

Record Writer : Type := mkWriter {
  version : string;
  filename : string;
  chunk_size : float;
  index : Index
}.

(** [with h5py.File(filename, mode='a') as h5file: body].  The file is
    created when it does not exist; opening a file that is not HDF5
    fails.  On exit, also by an exception, the tree is flushed. *)
Definition with_File {A} (filename : string) (body : Mon H5File A)
  : Mon FS A :=
  fun s =>
    match obj s !! filename with
    | Some NotHdf5 =>
        (s, Raise (IOError ("Unable to open file " +:+ filename)))
    | _ =>
        let '(s', r) := body (mkSt (opened (obj s) filename) (trace s)) in
        (mkSt (<[filename := IsHdf5 (obj s')]> (obj s)) (trace s'), r)
    end.

(** [h5file.create_group(groupname)] for a name that is a link name of
    the root (see [Paths.link_name] below): the group is created empty
    under this name. *)
Definition create_group (groupname : string) : Mon H5File unit :=
  call (CreateGroup groupname)
       (fun h5file => (<[groupname := empty_group]> h5file, Ok tt)).

(** A method called on the live object [group = h5file[groupname]]: what
    it does to the group is done to the file. *)
Definition on_group {A} (groupname : string) (ev : Event)
    (method : Group -> Group * result A) : Mon H5File A :=
  call ev (fun h5file =>
    match h5file !! groupname with
    | Some group =>
        let '(group', r) := method group in
        (<[groupname := group']> h5file, r)
    | None => (h5file, Raise (KeyError groupname))
    end).

Section Methods.
Context `{Imports}.

Definition init (filename : string) (chunk_size : option float)
  : Mon FS Writer :=
  let chunk_size := default 0.1%float chunk_size in
  fs ← get;
  if isfile fs filename && negb (is_hdf5 fs filename) then
    raise (IOError (filename +:+ " is not a HDF5 file."))
  else if PrimFloat.ltb chunk_size 0.008%float then
    raise (IOError "chunk size is below 8 Ko")
  else
    ret (mkWriter "1.0" filename chunk_size Index_new).

Definition is_same_version (self : Writer) (group : Group) : result bool :=
  rbind (attr group "version") (fun v => Ok (String.eqb v (version self))).

Definition expected_datasets (self : Writer) (data : Data) : list string :=
  [items_name (items data); times_name (times data);
   features_name (features data); index_name (index self)]
  ++ (if String.eqb (dformat (features data)) "sparse"
      then ["frames"; "coordinates"] else []).

Definition is_same_datasets (self : Writer) (group : Group) (data : Data)
  : bool :=
  all (map (contains group) (expected_datasets self data)).

Definition is_compatible (self : Writer) (group : Group) (data : Data)
  : result bool :=
  rbind (is_same_version self group) (fun same_version =>
  if negb same_version then Ok false
  else if negb (is_same_datasets self group data) then Ok false
  else
    rbind (comprehension group
             [Features_is_compatible (features data);
              items_is_compatible (items data);
              times_is_compatible (times data)])
          (fun cs => Ok (all cs))).

Definition write (self : Writer) (data : Data) (groupname : option string)
  : Mon FS unit :=
  let groupname := default "features" groupname in
  with_File (filename self) (
    h5file ← get;
    match h5file !! groupname with
    | Some group =>
        compatible ← lift (is_compatible self group data);
        if negb compatible then
          raise (IOError ("data is not appendable to the group " +:+ groupname))
        else ret tt
    | None =>
        create_group groupname;;
        on_group groupname (SetAttr groupname "version" (version self))
          (fun group => (set_attr "version" (version self) group, Ok tt));;
        nb_in_chunks ←
          on_group groupname (FeaturesCreate (chunk_size self))
            (features_create (features data) (chunk_size self));
        on_group groupname (TimesCreate nb_in_chunks)
          (times_create (times data) nb_in_chunks);;
        let nb_lines_by_chunk :=
          Z.max 10 (nb_lines 20 1 (chunk_size self * 1000)%float) in
        on_group groupname (ItemsCreate nb_lines_by_chunk)
          (items_create (items data) nb_lines_by_chunk);;
        on_group groupname (IndexCreate (chunk_size self))
          (index_create (index self) (chunk_size self))
    end;;
    on_group groupname IndexWrite
      (index_write (index self) (items data) (features data));;
    on_group groupname ItemsWrite (items_write (items data));;
    on_group groupname FeaturesWrite (features_write (features data));;
    on_group groupname TimesWrite (times_write (times data))).

End Methods.

End H5features2.

(** ** [h5features/h5features.py] *)

Module H5features.

(** What h5features.py imports from its package: the classes [Reader] and
    [Writer], the constructors of [Items], [Times], [Features] and
    [SparseFeatures], and [parse_dformat].  Constructors build objects in
    memory; [Reader] and [Writer] work on files. *)
Class Imports : Type := {
  Reader : Type;
  Reader_init : string -> string -> Mon FS Reader;
  Reader_read :
    Reader -> option string -> option string -> option float -> option float
    -> Mon FS Data;
  index_t : Type;
  Reader_index_read : Reader -> index_t -> Mon FS Data;
  Writer : Type;
  Writer_init : string -> float -> Mon FS Writer;
  (** [writer.write(data, groupname, append=True)] *)
  Writer_write_append : Writer -> Data -> string -> Mon FS unit;
  Items_init : list string -> result Items;
  Times_init : list ndarray -> result Times;
  Features_init : list ndarray -> result Features;
  SparseFeatures_init : list ndarray -> float -> result Features;
  parse_dformat : string -> result string
}.

Section Functions.
Context `{Imports}.

Definition read (filename groupname : string)
    (from_item to_item : option string) (from_time to_time : option float)
    (index : option index_t)
  : Mon FS (list (string * ndarray) * list (string * ndarray)) :=
  reader ← Reader_init filename groupname;
  data ← match index with
         | None => Reader_read reader from_item to_item from_time to_time
         | Some index => Reader_index_read reader index
         end;
  ret (dict (zip (items_data (items data)) (times_data (times data))),
       dict (zip (items_data (items data)) (features_data (features data)))).

Definition write (filename groupname : string) (items_data : list string)
    (times_data features_data : list ndarray)
    (dformat : option string) (chunk_size sparsity : option float)
  : Mon FS unit :=
  let dformat := default "dense" dformat in
  let chunk_size := default 0.1%float chunk_size in
  let sparsity := default 0.1%float sparsity in
  items ← lift (Items_init items_data);
  times ← lift (Times_init times_data);
  features ← lift (rbind (parse_dformat dformat) (fun parsed =>
                     if String.eqb parsed "sparse"
                     then SparseFeatures_init features_data sparsity
                     else Features_init features_data));
  let data := mkData items times features in
  writer ← Writer_init filename chunk_size;
  Writer_write_append writer data groupname.

Definition simple_write (filename group : string) (times features : ndarray)
    (item : option string) : Mon FS unit :=
  let item := default "item" item in
  write filename group [item] [times] [features] None None None.

End Functions.

End H5features.

(** ** The stores, the index and the reader, from the spec

    Everything in this module describes code of the package that is not
    under src/. *)

Module SpecModel.

(** Modelled from the spec: what the spec names without fixing it, taken
    as parameters: the chunk-size policy ([chunk.nb_lines]), the search
    of a time bound in the times of an item (the first row at or after
    [from_time], the row after the last one at or before [to_time],
    counted from the first row of the item), and the conversion of
    features to the sparse format. *)
Class Policy : Type := {
  policy_nb_lines : Z -> Z -> float -> Z;
  first_row_from : ndarray -> float -> nat;
  last_row_to : ndarray -> float -> nat;
  sparse_features : list ndarray -> float -> result Features
}.

(** Modelled from the spec: the storage engine (spec 1), which creates
    a named dataset or replaces its rows. *)
Definition create_dataset (name : string) (c : Content) (group : Group)
  : Group :=
  mkGroup (attrs group) (<[name := c]> (datasets group)).

(** Modelled from the spec: the storage engine reading the dataset of
    the identifiers. *)
Definition read_strings (group : Group) (name : string)
  : result (list string) :=
  match datasets group !! name with
  | Some (Strings l) => Ok l
  | Some _ => Raise (ValueError (name +:+ " does not hold strings"))
  | None => Raise (KeyError name)
  end.

(** Modelled from the spec: the storage engine reading the dataset of
    the cumulative offsets. *)
Definition read_offsets (group : Group) (name : string) : result (list nat) :=
  match datasets group !! name with
  | Some (Offsets l) => Ok l
  | Some _ => Raise (ValueError (name +:+ " does not hold offsets"))
  | None => Raise (KeyError name)
  end.

(** Modelled from the spec: the storage engine reading a dataset of
    times or of features. *)
Definition read_floats (group : Group) (name : string) : result ndarray :=
  match datasets group !! name with
  | Some (Floats a) => Ok a
  | Some _ => Raise (ValueError (name +:+ " does not hold floats"))
  | None => Raise (KeyError name)
  end.

(** Modelled from the spec: a store is created empty (spec 4.5), with
    the layout of the arrays it will hold. *)
Definition empty_like (arrays : list ndarray) : ndarray :=
  match arrays with
  | Array2D n _ :: _ => Array2D n []
  | _ => Array1D []
  end.

(** Modelled from the spec: the arrays of the items are row-concatenated
    (spec 6) after the rows already stored. *)
Fixpoint append_all (stored : ndarray) (arrays : list ndarray)
  : result ndarray :=
  match arrays with
  | [] => Ok stored
  | a :: rest => rbind (concatenate stored a) (fun s => append_all s rest)
  end.

(** Modelled from the spec: [write(group)] of the Times and Feature
    Stores appends the buffered rows; no dataset is partially written
    (spec 4.5). *)
Definition append_floats (name : string) (arrays : list ndarray)
    (group : Group) : Group * result unit :=
  match rbind (read_floats group name) (fun a => append_all a arrays) with
  | Ok a => (create_dataset name (Floats a) group, Ok tt)
  | Raise e => (group, Raise e)
  end.

(** *** Item Set (spec 4.1) *)

(** Modelled from the spec: [Items.write(group)] appends the identifiers
    in insertion order. *)
Definition Items_write (name : string) (data : list string) (group : Group)
  : Group * result unit :=
  match read_strings group name with
  | Ok stored => (create_dataset name (Strings (stored ++ data)) group, Ok tt)
  | Raise e => (group, Raise e)
  end.

(** Modelled from the spec: an Item Set, its dataset named [items]
    (spec 6); the spec asks no compatibility check of it. *)
Definition make_items (data : list string) : Items :=
  mkItems data "items"
    (fun _ => Ok true)
    (fun _ group => (create_dataset "items" (Strings []) group, Ok tt))
    (Items_write "items" data).

(** Modelled from the spec: no identifier is empty and none comes
    twice. *)
Definition valid_items (data : list string) : bool :=
  forallb (fun item => negb (String.eqb item "")) data
  && bool_decide (NoDup data).

(** Modelled from the spec: the constructor [Items(items_data)], which
    fails with [ValidationError]. *)
Definition Items_init (data : list string) : result Items :=
  if valid_items data then Ok (make_items data)
  else Raise (ValidationError "items must be non-empty and unique").

(** *** Times Store (spec 4.2) *)

(** Modelled from the spec: non-decreasing for the order [le]. *)
Fixpoint sorted_by {A} (le : A -> A -> bool) (l : list A) : bool :=
  match l with
  | x :: l' =>
      match l' with
      | y :: _ => le x y && sorted_by le l'
      | [] => true
      end
  | [] => true
  end.

(** Modelled from the spec: a line of times is at or before another one
    when each of its values is. *)
Definition line_leb (l1 l2 : list float) : bool :=
  forallb (fun p => PrimFloat.leb p.1 p.2) (zip l1 l2).

(** Modelled from the spec: a times array has rank 1, or rank 2 with two
    columns, and its values are non-decreasing. *)
Definition valid_times (a : ndarray) : bool :=
  match a with
  | Array1D xs => sorted_by PrimFloat.leb xs
  | Array2D n lines => bool_decide (n = 2%nat) && sorted_by line_leb lines
  end.

(** Modelled from the spec: a Times Store, its dataset named [times]
    (spec 6); the spec asks no compatibility check of it. *)
Definition make_times (data : list ndarray) : Times :=
  mkTimes data "times"
    (fun _ => Ok true)
    (fun _ group =>
       (create_dataset "times" (Floats (empty_like data)) group, Ok tt))
    (append_floats "times" data).

(** Modelled from the spec: the constructor [Times(times_data)], which
    fails with [ValidationError]. *)
Definition Times_init (data : list ndarray) : result Times :=
  if forallb valid_times data then Ok (make_times data)
  else Raise (ValidationError "times must be 1D or Nx2 and non-decreasing").

(** *** Feature Store (spec 4.3) *)

(** Modelled from the spec: the column count of a matrix. *)
Definition ncols_of (a : ndarray) : option nat :=
  match a with
  | Array1D _ => None
  | Array2D n _ => Some n
  end.

(** Modelled from the spec: the arrays share one column count (or all
    have rank 1), so that they can be row-concatenated. *)
Definition same_layout (data : list ndarray) : bool :=
  match data with
  | [] => true
  | a :: rest => forallb (fun b => bool_decide (ncols_of b = ncols_of a)) rest
  end.

(** Modelled from the spec: dense features are 2D arrays that share
    their column count. *)
Definition valid_features (data : list ndarray) : bool :=
  forallb (fun a => bool_decide (is_Some (ncols_of a))) data
  && same_layout data.

(** Modelled from the spec: the dimension of the features of a group. *)
Definition dim_of (data : list ndarray) : nat :=
  match data with
  | a :: _ => default 0%nat (ncols_of a)
  | [] => 0%nat
  end.

Section Stores.
Context `{Policy}.

(** Modelled from the spec: [Features.create(group, chunk_size)] declares
    the storage mode of the group, creates the dataset and answers the
    number of rows of a chunk, computed from [dim] values of 8 bytes per
    row. *)
Definition Features_create (dformat : string) (data : list ndarray)
    (chunk_size : float) (group : Group) : Group * result Z :=
  (set_attr "format" dformat
     (create_dataset "features" (Floats (empty_like data)) group),
   Ok (policy_nb_lines 8 (Z.of_nat (dim_of data)) (chunk_size * 1000)%float)).

(** Modelled from the spec: a dense Feature Store, its dataset named
    [features] (spec 6). *)
Definition make_features (data : list ndarray) : Features :=
  mkFeatures data "features" "dense"
    (Features_create "dense" data)
    (append_floats "features" data).

(** Modelled from the spec: the constructor [Features(features_data)],
    which fails with [ValidationError]; it is not given the times, and
    cannot compare the row counts with theirs. *)
Definition Features_init (data : list ndarray) : result Features :=
  if valid_features data then Ok (make_features data)
  else Raise (ValidationError "features must be 2D with one dimension").

(** Modelled from the spec: [parse_dformat] accepts the two formats; the
    docstring of [write] announces [IOError] for inconsistent
    parameters. *)
Definition parse_dformat (dformat : string) : result string :=
  if String.eqb dformat "dense" || String.eqb dformat "sparse"
  then Ok dformat
  else Raise (IOError (dformat +:+ " is a bad features format"))%string.

(** *** Cumulative Index (spec 4.4) *)

(** Modelled from the spec: the cumulative row counts after [total]
    rows. *)
Fixpoint cumulative (total : nat) (counts : list nat) : list nat :=
  match counts with
  | [] => []
  | c :: rest => (total + c)%nat :: cumulative (total + c)%nat rest
  end.

(** Modelled from the spec: [Index.write(group, items, features)] appends
    one offset per new item, the previous total row count plus the rows
    of the items up to this one. *)
Definition Index_write (name : string) (items : Items) (features : Features)
    (group : Group) : Group * result unit :=
  match read_offsets group name with
  | Ok stored =>
      let counts :=
        zip_with (fun _ a => nrows a) (items_data items)
                 (features_data features) in
      (create_dataset name
         (Offsets (stored ++ cumulative (List.last stored 0%nat) counts))
         group, Ok tt)
  | Raise e => (group, Raise e)
  end.

(** Modelled from the spec: the constructor [Index()]; a new index holds
    the offset 0 of the first item. *)
Definition make_index : Index :=
  mkIndex "index"
    (fun _ group => (create_dataset "index" (Offsets [0%nat]) group, Ok tt))
    (Index_write "index").

(** *** Reader (spec 4.6) *)

(** Modelled from the spec: a reader is bound to a file and a group. *)
Record Reader : Type := mkReader {
  reader_filename : string;
  reader_groupname : string
}.

(** Modelled from the spec: the position of an item in insertion
    order. *)
Fixpoint position (item : string) (names : list string) : option nat :=
  match names with
  | [] => None
  | name :: rest =>
      if String.eqb name item then Some 0%nat
      else S <$> position item rest
  end.

(** Modelled from the spec: an unknown item fails with [KeyError]. *)
Definition lookup_item (item : string) (names : list string) : result nat :=
  match position item names with
  | Some i => Ok i
  | None => Raise (KeyError item)
  end.

(** Modelled from the spec: the positions [start, stop) of the items to
    load, from [from_item] through [to_item]; the defaults are those of
    the docstring of [read]. *)
Definition item_range (names : list string) (from_item to_item : option string)
  : result (nat * nat) :=
  rbind (match from_item with
         | None => Ok 0%nat
         | Some item => lookup_item item names
         end) (fun start =>
  match to_item with
  | None =>
      Ok (start, match from_item with
                 | None => length names
                 | Some _ => S start
                 end)
  | Some item =>
      rbind (lookup_item item names) (fun last =>
        if (last <? start)%nat
        then Raise (ValidationError "to_item is before from_item")
        else Ok (start, S last))
  end).

(** Modelled from the spec: the offset of an item in the index. *)
Definition offset_at (offsets : list nat) (i : nat) : result nat :=
  match offsets !! i with
  | Some o => Ok o
  | None => Raise (KeyError "index")
  end.

(** Modelled from the spec: the rows [lo, hi) of the item at position
    [i], narrowed by [from_time] in the first item loaded and by
    [to_time] in the last one. *)
Definition row_range (offsets : list nat) (times : ndarray)
    (start stop : nat) (from_time to_time : option float) (i : nat)
  : result (nat * nat) :=
  rbind (offset_at offsets i) (fun lo =>
  rbind (offset_at offsets (S i)) (fun hi =>
    let lo' := match from_time with
               | Some t =>
                   if (i =? start)%nat
                   then (lo + first_row_from (slice lo hi times) t)%nat
                   else lo
               | None => lo
               end in
    let hi' := match to_time with
               | Some t =>
                   if (S i =? stop)%nat
                   then (lo + last_row_to (slice lo hi times) t)%nat
                   else hi
               | None => hi
               end in
    Ok (lo', hi'))).

(** Modelled from the spec: the row ranges are resolved item after
    item. *)
Fixpoint collect {A B} (f : A -> result B) (l : list A) : result (list B) :=
  match l with
  | [] => Ok []
  | x :: l' => rbind (f x) (fun y => rbind (collect f l') (fun ys => Ok (y :: ys)))
  end.

(** Modelled from the spec: the stores are sliced by the row ranges and
    the result is given per item, in item order. *)
Definition read_group (group : Group) (offsets : list nat)
    (from_item to_item : option string) (from_time to_time : option float)
  : result Data :=
  rbind (read_strings group "items") (fun names =>
  rbind (read_floats group "times") (fun times =>
  rbind (read_floats group "features") (fun features =>
  rbind (item_range names from_item to_item) (fun '(start, stop) =>
  rbind (collect (row_range offsets times start stop from_time to_time)
                 (seq start (stop - start))) (fun ranges =>
    Ok (mkData
          (make_items (take (stop - start) (drop start names)))
          (make_times (map (fun '(lo, hi) => slice lo hi times) ranges))
          (make_features
             (map (fun '(lo, hi) => slice lo hi features) ranges)))))))).

(** Modelled from the spec: the group a reader works on. *)
Definition open_group (filename groupname : string) : Mon FS Group :=
  fs ← get;
  match fs !! filename with
  | Some (IsHdf5 h5file) =>
      match h5file !! groupname with
      | Some group => ret group
      | None => raise (IOError ("no group " +:+ groupname))
      end
  | _ => raise (IOError (filename +:+ " is not a HDF5 file."))
  end.

(** Modelled from the spec: the constructor [Reader(filename, groupname)]. *)
Definition Reader_init (filename groupname : string) : Mon FS Reader :=
  open_group filename groupname;;
  ret (mkReader filename groupname).

(** Modelled from the spec: [Reader.read]; the row ranges come from the
    stored index. *)
Definition Reader_read (self : Reader) (from_item to_item : option string)
    (from_time to_time : option float) : Mon FS Data :=
  group ← open_group (reader_filename self) (reader_groupname self);
  lift (rbind (read_offsets group "index") (fun offsets =>
          read_group group offsets from_item to_item from_time to_time)).

(** Modelled from the spec: [Reader.index_read]; the row ranges come from
    the index the caller supplies. *)
Definition Reader_index_read (self : Reader) (index : list nat)
  : Mon FS Data :=
  group ← open_group (reader_filename self) (reader_groupname self);
  lift (read_group group index None None None None).

(** *** The package as the two modules see it *)

(** Modelled from the spec: what writer.py imports. *)
Definition writer_imports : H5features2.Imports :=
  {| H5features2.nb_lines := policy_nb_lines;
     H5features2.Index_new := make_index |}.

(** Modelled from the spec: the [Writer] imported by h5features.py; the
    spec (4.5) describes the Writer of h5features2/writer.py, which
    appends to a group that exists. *)
Definition legacy_imports : H5features.Imports :=
  {| H5features.Reader := Reader;
     H5features.Reader_init := Reader_init;
     H5features.Reader_read := Reader_read;
     H5features.index_t := list nat;
     H5features.Reader_index_read := Reader_index_read;
     H5features.Writer := H5features2.Writer;
     H5features.Writer_init := fun filename chunk_size =>
       @H5features2.init writer_imports filename (Some chunk_size);
     H5features.Writer_write_append := fun writer data groupname =>
       @H5features2.write writer_imports writer data (Some groupname);
     H5features.Items_init := Items_init;
     H5features.Times_init := Times_init;
     H5features.Features_init := Features_init;
     H5features.SparseFeatures_init := sparse_features;
     H5features.parse_dformat := parse_dformat |}.

End Stores.


End SpecModel.

(** ** Vocabulary of the statements *)

Module Statements.
Import H5features2.

(** The events of one call, in the order the source makes them. *)
Definition creation_script `{Imports} (self : Writer) (groupname : string)
    (nb_in_chunks : Z) : list Event :=
  [CreateGroup groupname;
   SetAttr groupname "version" (version self);
   FeaturesCreate (chunk_size self);
   TimesCreate nb_in_chunks;
   ItemsCreate (Z.max 10 (nb_lines 20 1 (chunk_size self * 1000)%float));
   IndexCreate (chunk_size self)].

Definition writing_script : list Event :=
  [IndexWrite; ItemsWrite; FeaturesWrite; TimesWrite].

(** What [Features.create] answers on the group just created. *)
Definition fresh_nb_in_chunks (self : Writer) (data : Data) : Z :=
  match (features_create (features data) (chunk_size self)
           (set_attr "version" (version self) empty_group)).2 with
  | Ok nb => nb
  | Raise _ => 0
  end.

Section Body.
Context `{Imports}.

(** The last four calls of [Writer.write]. *)
Definition writing (self : Writer) (data : Data) (groupname : string)
  : Mon H5File unit :=
  on_group groupname IndexWrite
    (index_write (index self) (items data) (features data));;
  on_group groupname ItemsWrite (items_write (items data));;
  on_group groupname FeaturesWrite (features_write (features data));;
  on_group groupname TimesWrite (times_write (times data)).

(** What [Writer.write] does with the file open. *)
Definition write_body (self : Writer) (data : Data) (groupname : string)
  : Mon H5File unit :=
  h5file ← get;
  match h5file !! groupname with
  | Some group =>
      compatible ← lift (is_compatible self group data);
      if negb compatible then
        raise (IOError ("data is not appendable to the group " +:+ groupname))
      else ret tt
  | None =>
      create_group groupname;;
      on_group groupname (SetAttr groupname "version" (version self))
        (fun group => (set_attr "version" (version self) group, Ok tt));;
      nb_in_chunks ←
        on_group groupname (FeaturesCreate (chunk_size self))
          (features_create (features data) (chunk_size self));
      on_group groupname (TimesCreate nb_in_chunks)
        (times_create (times data) nb_in_chunks);;
      let nb_lines_by_chunk :=
        Z.max 10 (nb_lines 20 1 (chunk_size self * 1000)%float) in
      on_group groupname (ItemsCreate nb_lines_by_chunk)
        (items_create (items data) nb_lines_by_chunk);;
      on_group groupname (IndexCreate (chunk_size self))
        (index_create (index self) (chunk_size self))
  end;;
  writing self data groupname.

End Body.


(** The row ranges of consecutive items with the given row counts. *)
Fixpoint ranges (start : nat) (counts : list nat) : list (nat * nat) :=
  match counts with
  | [] => []
  | c :: rest => (start, (start + c)%nat) :: ranges (start + c)%nat rest
  end.

End Statements.
Export Statements.

(** ** Reading a dictionary *)

Module Dicts.

(** [d.get(k)] *)
Fixpoint dict_get {V} (k : string) (d : list (string * V)) : option V :=
  match d with
  | [] => None
  | (k', v) :: d' => if String.eqb k' k then Some v else dict_get k d'
  end.

(** The value that the last pair with the key [k] gives to it. *)
Definition last_value {V} (k : string) (pairs : list (string * V))
  : option V :=
  dict_get k (reverse pairs).

(** [list(d.keys())] after the keys [ks] have been set in this order. *)
Definition keys_after (ks : list string) : list string :=
  foldl (fun seen k => if bool_decide (k ∈ seen) then seen else seen ++ [k])
        [] ks.

(** The Reader built by [read] answers [data], leaving the state [s']:
    its constructor succeeds, and then its [index_read] when an index is
    given, its [read] with the bounds otherwise. *)
Definition reader_answers `{H5features.Imports} (filename groupname : string)
    (from_item to_item : option string) (from_time to_time : option float)
    (index : option H5features.index_t) (s s' : St FS) (data : Data) : Prop :=
  exists s1 reader,
    H5features.Reader_init filename groupname s = (s1, Ok reader)
    /\ match index with
       | None =>
           H5features.Reader_read reader from_item to_item from_time to_time
       | Some index => H5features.Reader_index_read reader index
       end s1 = (s', Ok data).

End Dicts.

(** ** Group names

    h5py reads the name of a group as an HDF5 path from the root of the
    file: the empty name is refused, [/] and [.] name the root itself, a
    trailing [/] is dropped and a name with [/] inside goes through
    intermediate groups.  A file is here the flat map of its root group,
    which is what h5py does for the names that are link names; the facts
    on the presence of a group in the file are stated for them. *)

Module Paths.
Import Stdlib.Strings.Ascii.

(** A link name of the root group: not empty, not [.], and with neither
    a [/] nor a null character in it. *)
Definition link_name (name : string) : bool :=
  negb (String.eqb name "")
  && negb (String.eqb name ".")
  && forallb (fun c => negb (Ascii.eqb c "/"%char)
                       && negb (Ascii.eqb c Ascii.zero))
             (String.list_ascii_of_string name).

End Paths.

(** ** Outcomes of a call *)

Module Outcomes.
Import H5features2 Statements.

(** What the [with h5py.File(...)] statement leaves when its body ends
    with [out], by a return or by an exception: the file holds what the
    body made of it. *)
Definition flushed {A} (filename : string) (s : St FS)
    (out : St H5File * result A) : St FS * result A :=
  (mkSt (<[filename := IsHdf5 (obj out.1)]> (obj s)) (trace out.1), out.2).

(** The five calls that a new group has received once [Items.create] has
    been called. *)
Definition items_creation_script `{Imports} (self : Writer)
    (groupname : string) (nb_in_chunks : Z) : list Event :=
  [CreateGroup groupname;
   SetAttr groupname "version" (version self);
   FeaturesCreate (chunk_size self);
   TimesCreate nb_in_chunks;
   ItemsCreate (Z.max 10 (nb_lines 20 1 (chunk_size self * 1000)%float))].

(** What [Writer.write] does on a new group after [Items.create]. *)
Definition after_items_create `{Imports} (self : Writer) (data : Data)
    (groupname : string) : Mon H5File unit :=
  on_group groupname (IndexCreate (chunk_size self))
    (index_create (index self) (chunk_size self));;
  writing self data groupname.

(** The group on which the four writes of a call start, with the calls
    that have led to it: the group of the file when it is there and
    passes the compatibility check, after no call; or, when it is not
    there, the group that the four creations have made of the empty group
    carrying the version, after the six calls of the creation. *)
Inductive ready `{Imports} (self : Writer) (data : Data) (groupname : string)
    (h5file : H5File) : Group -> list Event -> Prop :=
| ready_found group :
    h5file !! groupname = Some group ->
    is_compatible self group data = Ok true ->
    ready self data groupname h5file group []
| ready_created nb_in_chunks group1 group2 group3 group4 :
    h5file !! groupname = None ->
    features_create (features data) (chunk_size self)
      (set_attr "version" (version self) empty_group)
    = (group1, Ok nb_in_chunks) ->
    times_create (times data) nb_in_chunks group1 = (group2, Ok tt) ->
    items_create (items data)
      (Z.max 10 (nb_lines 20 1 (chunk_size self * 1000)%float)) group2
    = (group3, Ok tt) ->
    index_create (index self) (chunk_size self) group3 = (group4, Ok tt) ->
    ready self data groupname h5file group4
      (creation_script self groupname nb_in_chunks).

End Outcomes.
Export Dicts.

(** ** Concrete inputs *)

Module Examples.
Import SpecModel.

Definition lines_of (a : ndarray) : list (list float) :=
  match a with
  | Array1D xs => map (fun x => [x]) xs
  | Array2D _ lines => lines
  end.

(** A chunk policy and a linear search of the time bounds. *)
Definition policy : Policy :=
  {| policy_nb_lines := fun item_size n_columns _ =>
       100 / (item_size * n_columns);
     first_row_from := fun a t =>
       length (filter (fun l => negb (forallb (PrimFloat.leb t) l))
                      (lines_of a));
     last_row_to := fun a t =>
       length (filter (fun l => forallb (fun x => PrimFloat.leb x t) l)
                      (lines_of a));
     sparse_features := fun _ _ =>
       Raise (NotImplementedError "sparse features") |}.

Definition writer_imports : H5features2.Imports :=
  @SpecModel.writer_imports policy.

Definition legacy_imports : H5features.Imports :=
  @SpecModel.legacy_imports policy.

(** Two items, [a] with 3 frames and [b] with 2 frames of dimension 2. *)
Definition item_names : list string := ["a"; "b"].

Definition item_times : list ndarray :=
  [Array1D [0; 1; 2]%float; Array1D [5; 6]%float].

Definition item_features : list ndarray :=
  [Array2D 2 [[1; 2]; [3; 4]; [5; 6]]%float;
   Array2D 2 [[7; 8]; [9; 10]]%float].

Definition data : Data :=
  mkData (make_items item_names) (make_times item_times)
         (@make_features policy item_features).

Definition writer : H5features2.Writer :=
  H5features2.mkWriter "1.0" "test.h5" 0.1%float make_index.

(** No file at all. *)
Definition no_file : St FS := mkSt ∅ [].

(** A group written by this version, holding the item [z]. *)
Definition group_1_0 : Group :=
  mkGroup {[ "version" := "1.0"; "format" := "dense" ]}
          {[ "items" := Strings ["z"];
             "times" := Floats (Array1D [0]%float);
             "features" := Floats (Array2D 2 [[0; 0]]%float);
             "index" := Offsets [0; 1]%nat ]}.

(** The same group as another version left it. *)
Definition group_0_9 : Group :=
  mkGroup {[ "version" := "0.9"; "format" := "dense" ]} (datasets group_1_0).

Definition file_with (group : Group) : St FS :=
  mkSt {[ "test.h5" := IsHdf5 {[ "features" := group ]} ]} [].

(** The file after the two items of the examples have been written. *)
Definition written : St FS :=
  (@H5features.write legacy_imports "test.h5" "features"
     item_names item_times item_features None None None no_file).1.

End Examples.

(** ** Objects that fail *)

Module Failing.
Import SpecModel.

(** A file that is not HDF5. *)
Definition other_file : St FS := mkSt {[ "test.h5" := NotHdf5 ]} [].

(** A group that carries no attribute. *)
Definition group_no_attrs : Group :=
  mkGroup ∅ (datasets Examples.group_1_0).

(** A group of this version that holds no dataset. *)
Definition group_no_datasets : Group :=
  mkGroup {[ "version" := "1.0"; "format" := "dense" ]} ∅.

(** Items whose check raises. *)
Definition items_unchecked : Items :=
  mkItems Examples.item_names "items"
    (fun _ => Raise (ValueError "items cannot be checked"))
    (items_create (items Examples.data))
    (items_write (items Examples.data)).

(** Items whose write raises after one identifier has been stored. *)
Definition items_unwritable : Items :=
  mkItems Examples.item_names "items"
    (fun _ => Ok true)
    (items_create (items Examples.data))
    (fun group =>
       (create_dataset "items" (Strings ["z"; "a"]) group,
        Raise (ValueError "items cannot be written"))).

(** Features whose creation raises after the format has been declared. *)
Definition features_raising : Features :=
  mkFeatures Examples.item_features "features" "dense"
    (fun _ group =>
       (set_attr "format" "dense" group,
        Raise (ValueError "features cannot be created")))
    (fun group => (group, Raise (ValueError "features cannot be written"))).

Definition data_unchecked : Data :=
  mkData items_unchecked (times Examples.data) (features Examples.data).

Definition data_unwritable : Data :=
  mkData items_unwritable (times Examples.data) (features Examples.data).

Definition data_features_raising : Data :=
  mkData (items Examples.data) (times Examples.data) features_raising.

(** The new group of the examples as [Features.create] leaves it, and
    then as [Times.create] does. *)
Definition group_with_features : Group :=
  (features_create (features Examples.data)
     (H5features2.chunk_size Examples.writer)
     (set_attr "version" (H5features2.version Examples.writer)
        empty_group)).1.

Definition group_with_times : Group :=
  (times_create (times Examples.data)
     (Statements.fresh_nb_in_chunks Examples.writer Examples.data)
     group_with_features).1.



(** A reader that answers the same item twice. *)
Definition twice : Data :=
  mkData (make_items ["a"; "b"; "a"])
         (make_times [Array1D [0]%float; Array1D [1]%float;
                      Array1D [2]%float])
         (@make_features Examples.policy
            [Array2D 1 [[0]]%float; Array2D 1 [[1]]%float;
             Array2D 1 [[2]]%float]).

Definition reader_twice : H5features.Imports :=
  {| H5features.Reader := unit;
     H5features.Reader_init := fun _ _ => ret tt;
     H5features.Reader_read := fun _ _ _ _ _ => ret twice;
     H5features.index_t := nat;
     H5features.Reader_index_read := fun _ _ => ret twice;
     H5features.Writer := unit;
     H5features.Writer_init := fun _ _ => ret tt;
     H5features.Writer_write_append := fun _ _ _ => ret tt;
     H5features.Items_init := Items_init;
     H5features.Times_init := Times_init;
     H5features.Features_init := @Features_init Examples.policy;
     H5features.SparseFeatures_init := @sparse_features Examples.policy;
     H5features.parse_dformat := parse_dformat |}.

End Failing.

Module WriterFacts.
Import H5features2.

Lemma St_eta {S} (s : St S) : mkSt (obj s) (trace s) = s.
Proof. by destruct s. Qed.

Lemma rbind_Ok_inv {A B} (r : result A) (k : A -> result B) b :
  rbind r k = Ok b -> exists a, r = Ok a /\ k a = Ok b.
Proof. destruct r; [by eauto|done]. Qed.

Lemma attr_eqb_inv group key value :
  rbind (attr group key) (fun v => Ok (String.eqb v value)) = Ok true ->
  attrs group !! key = Some value.
Proof.
  unfold attr. destruct (attrs group !! key) as [v|]; [|done]. cbn.
  intros Heq. injection Heq as Heq. by apply String.eqb_eq in Heq as ->.
Qed.

Lemma on_group_run {A} groupname ev (method : Group -> Group * result A)
    (st : St H5File) group :
  obj st !! groupname = Some group ->
  on_group groupname ev method st
  = (mkSt (<[groupname := (method group).1]> (obj st)) (trace st ++ [ev]),
     (method group).2).
Proof.
  intros Hg. unfold on_group, call. rewrite Hg. by destruct (method group).
Qed.

Section Facts.
Context `{Imports}.

Ltac step_on_group Hst :=
  match goal with
  | |- context [on_group ?g ?ev ?m ?st] =>
      let Hm := fresh "Hm" in
      let g' := fresh "group" in
      erewrite (on_group_run g ev m st)
        by (cbn; first [exact Hst | apply lookup_insert_eq]);
      destruct (m _) as [g' [?|?]] eqn:Hm; cbn [fst snd obj trace]
  end.

Ltac close_trace evs :=
  exists evs; cbn; rewrite <- ?app_assoc;
  split_and?; first [done | by eexists | idtac].

Lemma writing_trace self data groupname (st : St H5File) group :
  obj st !! groupname = Some group ->
  exists evs,
    trace (writing self data groupname st).1 = trace st ++ evs
    /\ evs `prefix_of` writing_script
    /\ ((writing self data groupname st).2 = Ok tt -> evs = writing_script).
Proof.
  intros Hst. unfold writing, mbind, Mon_bind, bind.
  step_on_group Hst; [|close_trace [IndexWrite]].
  step_on_group Hst; [|close_trace [IndexWrite; ItemsWrite]].
  step_on_group Hst; [|close_trace [IndexWrite; ItemsWrite; FeaturesWrite]].
  step_on_group Hst; close_trace writing_script.
Qed.

Lemma with_File_run {A} filename (body : Mon H5File A) (s : St FS) :
  obj s !! filename ≠ Some NotHdf5 ->
  with_File filename body s
  = let out := body (mkSt (opened (obj s) filename) (trace s)) in
    (mkSt (<[filename := IsHdf5 (obj out.1)]> (obj s)) (trace out.1), out.2).
Proof.
  intros Hfile. unfold with_File.
  destruct (obj s !! filename) as [[|h5file]|]; [done| |];
    by destruct (body _).
Qed.

Lemma write_body_new_group self data groupname (st : St H5File) :
  obj st !! groupname = None ->
  exists evs,
    trace (write_body self data groupname st).1 = trace st ++ evs
    /\ evs `prefix_of`
         creation_script self groupname (fresh_nb_in_chunks self data)
         ++ writing_script
    /\ (3 <= length evs)%nat
    /\ ((write_body self data groupname st).2 = Ok tt ->
        evs = creation_script self groupname (fresh_nb_in_chunks self data)
              ++ writing_script).
Proof.
  intros Hst. unfold write_body, fresh_nb_in_chunks.
  unfold mbind, Mon_bind, bind, get, create_group, call.
  rewrite Hst. cbn [obj trace].
  assert (Hnew : (<[groupname := empty_group]> (obj st) : H5File) !! groupname
                 = Some empty_group) by apply lookup_insert_eq.
  erewrite on_group_run by exact Hnew. cbn [fst snd obj trace].
  step_on_group Hst; [|close_trace
    [CreateGroup groupname; SetAttr groupname "version" (version self);
     FeaturesCreate (chunk_size self)]; lia].
  step_on_group Hst; [|close_trace
    [CreateGroup groupname; SetAttr groupname "version" (version self);
     FeaturesCreate (chunk_size self); TimesCreate a]; lia].
  step_on_group Hst; [|close_trace
    [CreateGroup groupname; SetAttr groupname "version" (version self);
     FeaturesCreate (chunk_size self); TimesCreate a;
     ItemsCreate (Z.max 10 (nb_lines 20 1 (chunk_size self * 1000)%float))];
    lia].
  step_on_group Hst; [|close_trace (creation_script self groupname a); lia].
  match goal with
  | |- context [writing self data groupname ?st'] =>
      edestruct (writing_trace self data groupname st') as
        (evs & Htr & Hpre & Hok); [apply lookup_insert_eq|]
  end.
  exists (creation_script self groupname a ++ evs).
  split_and!.
  - rewrite Htr. cbn [trace]. by rewrite <- ?app_assoc.
  - by apply prefix_app.
  - rewrite length_app. cbn. lia.
  - intros Hr. by rewrite (Hok Hr).
Qed.

Lemma write_body_existing self data groupname (st : St H5File) group :
  obj st !! groupname = Some group ->
  is_compatible self group data = Ok true ->
  write_body self data groupname st = writing self data groupname st.
Proof.
  intros Hst Hc. unfold write_body, mbind, Mon_bind, bind, get, lift.
  rewrite Hst, Hc. reflexivity.
Qed.

Lemma write_body_rejected self data groupname (st : St H5File) group :
  obj st !! groupname = Some group ->
  is_compatible self group data ≠ Ok true ->
  exists e, write_body self data groupname st = (st, Raise e).
Proof.
  intros Hst Hc. unfold write_body, mbind, Mon_bind, bind, get, lift.
  rewrite Hst. destruct (is_compatible self group data) as [[]|e]; by eauto.
Qed.

Lemma write_unfold self data groupname :
  write self data groupname
  = with_File (filename self)
      (write_body self data (default "features" groupname)).
Proof. reflexivity. Qed.

(** C1. When the group exists in the file and the compatibility check
    answers that the data is not appendable, [Writer.write] raises
    [IOError] and leaves the file as it was: no mutating call has been
    made (the recorded calls are unchanged), so no dataset is appended
    to and no attribute is set. *)
Theorem write_not_appendable self data groupname (s : St FS) h5file group :
  obj s !! filename self = Some (IsHdf5 h5file) ->
  h5file !! default "features" groupname = Some group ->
  is_compatible self group data = Ok false ->
  write self data groupname s
  = (s, Raise (IOError ("data is not appendable to the group "
                        +:+ default "features" groupname))).
Proof.
  intros Hfile Hgroup Hcompat.
  unfold write, with_File, opened. rewrite Hfile.
  unfold mbind, Mon_bind, bind, get, lift, raise. cbn [obj trace].
  rewrite Hgroup, Hcompat. cbn.
  rewrite insert_id by done. by rewrite St_eta.
Qed.

(** When the check itself raises (a group without version or format
    attribute: [KeyError]), the exception escapes [Writer.write], and
    again nothing has been done to the file. *)
Lemma write_check_raises self data groupname (s : St FS) h5file group e :
  obj s !! filename self = Some (IsHdf5 h5file) ->
  h5file !! default "features" groupname = Some group ->
  is_compatible self group data = Raise e ->
  write self data groupname s = (s, Raise e).
Proof.
  intros Hfile Hgroup Hcompat.
  unfold write, with_File, opened. rewrite Hfile.
  unfold mbind, Mon_bind, bind, get, lift, raise. cbn [obj trace].
  rewrite Hgroup, Hcompat. cbn.
  rewrite insert_id by done. by rewrite St_eta.
Qed.

(** C2. A chunk size below 0.008 makes the constructor raise [IOError];
    the file system is left as it was and no call on a file has been
    made. *)
Theorem init_chunk_size_too_small filename (chunk_size : float) (s : St FS) :
  PrimFloat.ltb chunk_size 0.008%float = true ->
  exists msg, init filename (Some chunk_size) s = (s, Raise (IOError msg)).
Proof.
  intros Hlt. unfold init, mbind, Mon_bind, bind, get, raise.
  cbn. rewrite Hlt.
  destruct (isfile (obj s) filename && negb (is_hdf5 (obj s) filename));
    eauto.
Qed.

(** C5. The compatibility check of an append passes only if the version
    attribute of the group is the version of the Writer, the format
    attribute of the group is the format of the new features, and the
    datasets named by the items, the times, the features and the index
    are in the group, together with [frames] and [coordinates] when the
    new features are sparse. *)
Theorem is_compatible_only_if self group data :
  is_compatible self group data = Ok true ->
  attrs group !! "version" = Some (version self)
  /\ attrs group !! "format" = Some (dformat (features data))
  /\ Forall (fun d => is_Some (datasets group !! d))
        [items_name (items data); times_name (times data);
         features_name (features data); index_name (index self)]
  /\ (dformat (features data) = "sparse" ->
      is_Some (datasets group !! "frames")
      /\ is_Some (datasets group !! "coordinates")).
Proof.
  intros Hc. unfold is_compatible in Hc.
  apply rbind_Ok_inv in Hc as (same_version & Hv & Hc).
  destruct same_version; [|done]. cbn [negb] in Hc.
  destruct (is_same_datasets self group data) eqn:Hd; [|done].
  cbn [negb comprehension] in Hc.
  apply rbind_Ok_inv in Hc as (cs & Hcs & Hall).
  apply rbind_Ok_inv in Hcs as (cf & Hcf & Hcs).
  apply rbind_Ok_inv in Hcs as (cs' & Hcs' & Hcs).
  injection Hcs as <-. injection Hall as Hall.
  assert (cf = true) as -> by by destruct cf.
  apply attr_eqb_inv in Hv, Hcf.
  unfold is_same_datasets, all in Hd. rewrite forallb_forall in Hd.
  assert (Hin : forall d, In d (expected_datasets self data) ->
                          is_Some (datasets group !! d)).
  { intros d Hin.
    specialize (Hd (contains group d) (in_map (contains group) _ _ Hin)).
    by apply bool_decide_eq_true in Hd. }
  unfold expected_datasets in Hin.
  split_and!; [done|done| |].
  - repeat constructor; apply Hin, in_or_app; left; cbn; tauto.
  - intros Hsparse. rewrite Hsparse in Hin. cbn in Hin.
    split; apply Hin; tauto.
Qed.

End Facts.

Lemma write_not_appendable_witness :
  @write Examples.writer_imports Examples.writer Examples.data None
    (Examples.file_with Examples.group_0_9)
  = (Examples.file_with Examples.group_0_9,
     Raise (IOError "data is not appendable to the group features")).
Proof.
  apply (@write_not_appendable Examples.writer_imports Examples.writer
           Examples.data None (Examples.file_with Examples.group_0_9)
           {[ "features" := Examples.group_0_9 ]} Examples.group_0_9);
    reflexivity.
Defined.

Lemma init_chunk_size_too_small_witness :
  exists msg,
    @init Examples.writer_imports "test.h5" (Some 0.001%float) Examples.no_file
    = (Examples.no_file, Raise (IOError msg)).
Proof.
  apply (@init_chunk_size_too_small Examples.writer_imports "test.h5"
           0.001%float Examples.no_file).
  reflexivity.
Defined.

Lemma is_compatible_only_if_witness :
  attrs Examples.group_1_0 !! "version" = Some "1.0"
  /\ attrs Examples.group_1_0 !! "format" = Some "dense".
Proof.
  destruct (is_compatible_only_if Examples.writer Examples.group_1_0
              Examples.data) as (Hv & Hf & _).
  - reflexivity.
  - split; [exact Hv|exact Hf].
Defined.

End WriterFacts.

Module LegacyFacts.
Import H5features.

Section Facts.
Context `{Imports}.


(** C8. [simple_write] is [write] on the one-item lists, with the dense
    format, the chunk size 0.1 and the sparsity 0.1 that [write] takes by
    default; when no item name is given the name is [item]. *)
Theorem simple_write_is_write filename group times features item :
  simple_write filename group times features item
  = write filename group [default "item" item] [times] [features]
          (Some "dense") (Some 0.1%float) (Some 0.1%float)
  /\ simple_write filename group times features None
     = simple_write filename group times features (Some "item").
Proof. split; reflexivity. Qed.

(** C10. With an index, [read] takes the path of [Reader.index_read] and
    does not look at the item and time bounds: whatever they are, the
    result is the one without bounds. *)
Theorem read_index_ignores_bounds filename groupname from_item to_item
    from_time to_time (index : index_t) :
  read filename groupname from_item to_item from_time to_time (Some index)
  = (reader ← Reader_init filename groupname;
     data ← Reader_index_read reader index;
     ret (dict (zip (items_data (items data)) (times_data (times data))),
          dict (zip (items_data (items data))
                    (features_data (features data)))))
  /\ read filename groupname from_item to_item from_time to_time (Some index)
     = read filename groupname None None None None (Some index).
Proof. split; reflexivity. Qed.

End Facts.

End LegacyFacts.

Module RoundTrip.
Import SpecModel.

(** *** Dictionaries with distinct keys *)

Lemma dict_set_fresh {V} k (v : V) (d : list (string * V)) :
  k ∉ d.*1 -> dict_set k v d = d ++ [(k, v)].
Proof.
  induction d as [|[k' v'] d IH]; cbn; [done|].
  rewrite not_elem_of_cons. intros [Hne Hk].
  destruct (String.eqb k' k) eqn:E.
  - apply String.eqb_eq in E. congruence.
  - by rewrite IH.
Qed.

Lemma foldl_dict_set {V} (pairs acc : list (string * V)) :
  NoDup ((acc ++ pairs).*1) ->
  foldl (fun d kv => dict_set kv.1 kv.2 d) acc pairs = acc ++ pairs.
Proof.
  revert acc. induction pairs as [|[k v] pairs IH]; intros acc Hnd; cbn.
  - by rewrite app_nil_r.
  - rewrite dict_set_fresh.
    + rewrite IH; rewrite <- app_assoc; done.
    + rewrite fmap_app in Hnd. apply NoDup_app in Hnd as (_ & Hdisj & _).
      intros Hin. apply (Hdisj k Hin). cbn. apply elem_of_cons. by left.
Qed.

Lemma dict_distinct_keys {V} (pairs : list (string * V)) :
  NoDup pairs.*1 -> dict pairs = pairs.
Proof. intros Hnd. unfold dict. by rewrite foldl_dict_set. Qed.

(** *** Rows appended to an array are found again by slicing *)









Section Facts.
Context `{Policy}.


Import H5features2 WriterFacts.











End Facts.


(** The range queries of the spec (8) on the written file. *)
Example read_from_a_to_b :
  (@H5features.read Examples.legacy_imports "test.h5" "features"
     (Some "a") (Some "b") None None None Examples.written).2
  = Ok ([("a", Array1D [0; 1; 2]%float); ("b", Array1D [5; 6]%float)],
        [("a", Array2D 2 [[1; 2]; [3; 4]; [5; 6]]%float);
         ("b", Array2D 2 [[7; 8]; [9; 10]]%float)]).
Proof. vm_compute. reflexivity. Qed.

Example read_a_at_time_1 :
  (@H5features.read Examples.legacy_imports "test.h5" "features"
     (Some "a") None (Some 1%float) (Some 1%float) None Examples.written).2
  = Ok ([("a", Array1D [1]%float)], [("a", Array2D 2 [[3; 4]]%float)]).
Proof. vm_compute. reflexivity. Qed.

Example offsets_written :
  match obj Examples.written !! "test.h5" with
  | Some (IsHdf5 h5file) =>
      (fun group => datasets group !! "index") <$> h5file !! "features"
  | _ => None
  end = Some (Some (Offsets [0; 3; 5]%nat)).
Proof. vm_compute. reflexivity. Qed.

End RoundTrip.

(** ** More on [h5features2/writer.py] *)

Module WriterMore.
Import H5features2 WriterFacts.

Lemma init_file_test_false (fs : FS) filename :
  fs !! filename ≠ Some NotHdf5 ->
  isfile fs filename && negb (is_hdf5 fs filename) = false.
Proof.
  intros Hfile. unfold isfile, is_hdf5.
  destruct (fs !! filename) as [[|h5file]|]; [done|..];
    by rewrite ?andb_false_r.
Qed.

Lemma init_file_test_true (fs : FS) filename :
  fs !! filename = Some NotHdf5 ->
  isfile fs filename && negb (is_hdf5 fs filename) = true.
Proof.
  intros Hfile. unfold isfile, is_hdf5. rewrite Hfile.
  by rewrite bool_decide_eq_true_2.
Qed.

(** Programs on the open file that leave the group [other] alone. *)
Definition keeps_other {A} (other : string) (m : Mon H5File A) : Prop :=
  forall st, obj (m st).1 !! other = obj st !! other.

(** Programs on the open file that do not remove the group [groupname]. *)
Definition keeps_group {A} (groupname : string) (m : Mon H5File A) : Prop :=
  forall st, is_Some (obj st !! groupname) ->
             is_Some (obj (m st).1 !! groupname).

Lemma bind_keeps_other {A B} other (m : Mon H5File A) (k : A -> Mon H5File B) :
  keeps_other other m -> (forall a, keeps_other other (k a)) ->
  keeps_other other (m ≫= k).
Proof.
  intros Hm Hk st. unfold mbind, Mon_bind, bind.
  specialize (Hm st). destruct (m st) as [st' [a|e]]; cbn in *; [|done].
  by rewrite Hk.
Qed.

Lemma on_group_keeps_other {A} groupname other ev
    (method : Group -> Group * result A) :
  other ≠ groupname -> keeps_other other (on_group groupname ev method).
Proof.
  intros Hne st. unfold on_group, call.
  destruct (obj st !! groupname) as [group|]; [|done].
  destruct (method group). cbn. by rewrite lookup_insert_ne.
Qed.

Lemma bind_keeps_group {A B} groupname (m : Mon H5File A)
    (k : A -> Mon H5File B) :
  keeps_group groupname m -> (forall a, keeps_group groupname (k a)) ->
  keeps_group groupname (m ≫= k).
Proof.
  intros Hm Hk st Hst. unfold mbind, Mon_bind, bind.
  specialize (Hm st Hst). destruct (m st) as [st' [a|e]]; cbn in *; [|done].
  by apply Hk.
Qed.

Lemma on_group_keeps_group {A} groupname ev
    (method : Group -> Group * result A) :
  keeps_group groupname (on_group groupname ev method).
Proof.
  intros st [group Hst]. unfold on_group, call. rewrite Hst.
  destruct (method group). cbn. rewrite lookup_insert_eq. by eexists.
Qed.

Section Facts.
Context `{Imports}.

Lemma writing_keeps_other self data groupname other :
  other ≠ groupname -> keeps_other other (writing self data groupname).
Proof.
  intros Hne. unfold writing.
  repeat (apply bind_keeps_other; [by apply on_group_keeps_other|intros _]).
  by apply on_group_keeps_other.
Qed.

Lemma writing_keeps_group self data groupname :
  keeps_group groupname (writing self data groupname).
Proof.
  unfold writing.
  repeat (apply bind_keeps_group; [by apply on_group_keeps_group|intros _]).
  by apply on_group_keeps_group.
Qed.

Lemma write_body_keeps_other self data groupname other :
  other ≠ groupname -> keeps_other other (write_body self data groupname).
Proof.
  intros Hne st. unfold write_body.
  unfold mbind at 1, Mon_bind at 1, bind at 1, get at 1. cbn [obj].
  apply (bind_keeps_other other); [|intros _; by apply writing_keeps_other].
  destruct (obj st !! groupname) as [group|].
  - intros st'. unfold mbind, Mon_bind, bind, lift, raise, ret.
    by destruct (is_compatible self group data) as [[]|].
  - apply bind_keeps_other.
    { intros st'. unfold create_group, call. cbn. by rewrite lookup_insert_ne. }
    intros _.
    repeat (apply bind_keeps_other; [by apply on_group_keeps_other|intros ?]).
    by apply on_group_keeps_other.
Qed.

Lemma write_body_has_group self data groupname (st : St H5File) :
  is_Some (obj (write_body self data groupname st).1 !! groupname).
Proof.
  unfold write_body.
  unfold mbind at 1, Mon_bind at 1, bind at 1, get at 1. cbn [obj].
  destruct (obj st !! groupname) as [group|] eqn:Hst.
  - apply (bind_keeps_group groupname);
      [|intros _; apply writing_keeps_group|by rewrite Hst].
    intros st' Hst'. unfold mbind, Mon_bind, bind, lift, raise, ret.
    by destruct (is_compatible self group data) as [[]|].
  - unfold mbind at 1, Mon_bind at 1, bind at 1.
    unfold mbind at 1, Mon_bind at 1, bind at 1.
    unfold create_group, call. cbn [obj trace].
    match goal with
    | |- context [(?m ≫= ?k) ?st0] =>
        assert (Hkeep : keeps_group groupname (m ≫= k))
    end.
    { repeat (apply bind_keeps_group;
              [by apply on_group_keeps_group|intros ?]).
      apply on_group_keeps_group. }
    match goal with
    | |- context [(?m ≫= ?k) ?st0] =>
        specialize (Hkeep st0); destruct ((m ≫= k) st0) as [st1 [[]|e]]
    end; cbn in *.
    + apply writing_keeps_group, Hkeep. rewrite lookup_insert_eq. by eexists.
    + apply Hkeep. rewrite lookup_insert_eq. by eexists.
Qed.

Ltac run_on_group Hst :=
  match goal with
  | |- context [on_group ?g ?ev ?m ?st] =>
      erewrite (on_group_run g ev m st)
        by (cbn; first [exact Hst | apply lookup_insert_eq]);
      cbn [fst snd obj trace]
  end.

Lemma writing_calls self data groupname (st : St H5File) group :
  obj st !! groupname = Some group ->
  exists evs,
    trace (writing self data groupname st).1 = trace st ++ evs
    /\ evs `prefix_of` writing_script
    /\ (1 <= length evs)%nat.
Proof.
  intros Hst. unfold writing, mbind, Mon_bind, bind.
  run_on_group Hst.
  destruct (index_write _ _ _ _) as [g1 [[]|e]]; cbn [fst snd].
  2:{ exists [IndexWrite]. cbn. split_and!; [done|by eexists|lia]. }
  run_on_group Hst.
  destruct (items_write _ _) as [g2 [[]|e]]; cbn [fst snd].
  2:{ exists [IndexWrite; ItemsWrite]. cbn. rewrite <- ?app_assoc.
      split_and!; [done|by eexists|lia]. }
  run_on_group Hst.
  destruct (features_write _ _) as [g3 [[]|e]]; cbn [fst snd].
  2:{ exists [IndexWrite; ItemsWrite; FeaturesWrite]. cbn.
      rewrite <- ?app_assoc. split_and!; [done|by eexists|lia]. }
  run_on_group Hst.
  exists writing_script. cbn. rewrite <- ?app_assoc.
  split_and!; [done|done|lia].
Qed.

Lemma write_body_existing_calls self data groupname (st : St H5File) group :
  obj st !! groupname = Some group ->
  exists evs,
    trace (write_body self data groupname st).1 = trace st ++ evs
    /\ evs `prefix_of` writing_script.
Proof.
  intros Hst.
  assert (Hc : is_compatible self group data = Ok true
               \/ is_compatible self group data ≠ Ok true).
  { destruct (is_compatible self group data) as [[]|]; by eauto. }
  destruct Hc as [Hc|Hc].
  - rewrite (write_body_existing _ _ _ _ _ Hst Hc).
    destruct (writing_calls self data groupname st group Hst)
      as (evs & Ht & Hpre & _). by eauto.
  - destruct (write_body_rejected _ _ _ _ _ Hst Hc) as [e ->].
    exists []. cbn. rewrite app_nil_r. split; [done|]. by eexists.
Qed.

Lemma write_body_chunk_size version filename chunk_size chunk_size' index
    data groupname (st : St H5File) group :
  obj st !! groupname = Some group ->
  write_body (mkWriter version filename chunk_size index) data groupname st
  = write_body (mkWriter version filename chunk_size' index) data groupname st.
Proof.
  intros Hst. unfold write_body, mbind, Mon_bind, bind, get.
  by rewrite Hst.
Qed.

Lemma opened_insert (fs : FS) filename h5file :
  opened (<[filename := IsHdf5 h5file]> fs) filename = h5file.
Proof. unfold opened. by rewrite lookup_insert_eq. Qed.

(** X1. The constructor accepts a file that does not exist or is HDF5,
    with a chunk size that is not below 0.008: it answers a Writer of
    version 1.0 for this file and chunk size, and leaves the state as it
    was (the file is not created). *)
Theorem init_accepts filename chunk_size (s : St FS) :
  obj s !! filename ≠ Some NotHdf5 ->
  PrimFloat.ltb (default 0.1%float chunk_size) 0.008%float = false ->
  init filename chunk_size s
  = (s, Ok (mkWriter "1.0" filename (default 0.1%float chunk_size)
              Index_new)).
Proof.
  intros Hfile Hchunk. unfold init, mbind, Mon_bind, bind, get, raise, ret.
  cbn. by rewrite (init_file_test_false _ _ Hfile), Hchunk.
Qed.

(** X2. A file that exists and is not HDF5 is refused with the message
    naming it, whatever the chunk size is: the file is tested before the
    chunk size. *)
Theorem init_refuses_other_file filename chunk_size (s : St FS) :
  obj s !! filename = Some NotHdf5 ->
  init filename chunk_size s
  = (s, Raise (IOError (filename +:+ " is not a HDF5 file."))).
Proof.
  intros Hfile. unfold init, mbind, Mon_bind, bind, get, raise, ret.
  cbn. by rewrite (init_file_test_true _ _ Hfile).
Qed.

(** X3. A Writer that has been constructed has version 1.0, the file name
    and chunk size it was given (0.1 by default); its file can be opened,
    its chunk size is not below 0.008, and constructing it has not
    changed the state. *)
Theorem init_Ok_inv filename chunk_size (s s' : St FS) writer :
  init filename chunk_size s = (s', Ok writer) ->
  s' = s
  /\ writer = mkWriter "1.0" filename (default 0.1%float chunk_size) Index_new
  /\ obj s !! filename ≠ Some NotHdf5
  /\ PrimFloat.ltb (H5features2.chunk_size writer) 0.008%float = false.
Proof.
  unfold init, mbind, Mon_bind, bind, get, raise, ret. cbn.
  destruct (isfile (obj s) filename && negb (is_hdf5 (obj s) filename))
    eqn:Htest; [done|].
  destruct (PrimFloat.ltb (default 0.1%float chunk_size) 0.008%float)
    eqn:Hchunk; [done|].
  intros [= <- <-]. split_and!; [done|done| |done].
  intros Hfile. by rewrite (init_file_test_true _ _ Hfile) in Htest.
Qed.

(** X4. Appending to a group that has no version attribute raises
    [KeyError] for this attribute, not [IOError]; nothing has been done
    to the file. *)
Theorem write_missing_version self data groupname (s : St FS) h5file group :
  obj s !! filename self = Some (IsHdf5 h5file) ->
  h5file !! default "features" groupname = Some group ->
  attrs group !! "version" = None ->
  write self data groupname s = (s, Raise (KeyError "version")).
Proof.
  intros Hfile Hgroup Hversion.
  unfold write, with_File, opened. rewrite Hfile.
  unfold mbind, Mon_bind, bind, get, lift, raise. cbn [obj trace].
  rewrite Hgroup. unfold is_compatible, is_same_version, attr.
  rewrite Hversion. cbn. rewrite insert_id by done. by rewrite St_eta.
Qed.

(** X5. [is_same_datasets] holds exactly when the group has the datasets
    named by the items, the times, the features and the index, and also
    [frames] and [coordinates] when the features are sparse; for dense
    features these two are not asked for. *)
Theorem is_same_datasets_iff self group data :
  is_same_datasets self group data = true
  <-> is_Some (datasets group !! items_name (items data))
      /\ is_Some (datasets group !! times_name (times data))
      /\ is_Some (datasets group !! features_name (features data))
      /\ is_Some (datasets group !! index_name (index self))
      /\ (dformat (features data) = "sparse" ->
          is_Some (datasets group !! "frames")
          /\ is_Some (datasets group !! "coordinates")).
Proof.
  unfold is_same_datasets, all, expected_datasets, contains.
  destruct (String.eqb (dformat (features data)) "sparse") eqn:Hsparse.
  - apply String.eqb_eq in Hsparse. cbn.
    rewrite !andb_true_iff, !bool_decide_eq_true. tauto.
  - apply String.eqb_neq in Hsparse. cbn.
    rewrite !andb_true_iff, !bool_decide_eq_true. tauto.
Qed.

(** X6. A group of another version is not compatible: the answer is
    [False] without the datasets being looked at and without the checks
    of the data being called, so that nothing they would raise escapes. *)
Theorem is_compatible_other_version self group data v :
  attrs group !! "version" = Some v ->
  v ≠ version self ->
  is_compatible self group data = Ok false.
Proof.
  intros Hv Hne. unfold is_compatible, is_same_version, attr. rewrite Hv.
  cbn. apply String.eqb_neq in Hne. by rewrite Hne.
Qed.

(** X7. A group of the same version that lacks an expected dataset is
    not compatible, and here too the checks of the data are not called. *)
Theorem is_compatible_missing_dataset self group data :
  attrs group !! "version" = Some (version self) ->
  is_same_datasets self group data = false ->
  is_compatible self group data = Ok false.
Proof.
  intros Hv Hd. unfold is_compatible, is_same_version, attr. rewrite Hv.
  cbn [rbind]. rewrite String.eqb_refl. cbn [negb]. by rewrite Hd.
Qed.

(** X8. The checks of the features, of the items and of the times are all
    made before their answers are combined: when the version and the
    datasets agree, an exception of the items check, or of the times
    check after it, escapes even if an earlier check has answered
    [False]. *)
Theorem is_compatible_check_raises self group data b e :
  is_same_version self group = Ok true ->
  is_same_datasets self group data = true ->
  Features_is_compatible (features data) group = Ok b ->
  (items_is_compatible (items data) group = Raise e
   \/ exists b', items_is_compatible (items data) group = Ok b'
                /\ times_is_compatible (times data) group = Raise e) ->
  is_compatible self group data = Raise e.
Proof.
  intros Hv Hd Hf Hraise. unfold is_compatible. rewrite Hv.
  cbn [rbind negb]. rewrite Hd. cbn [negb comprehension]. rewrite Hf.
  cbn [rbind].
  destruct Hraise as [Hi|(b' & Hi & Ht)]; rewrite Hi; cbn [rbind]; [done|].
  by rewrite Ht.
Qed.

(** X9. The compatibility check answers [True] exactly when the version
    is the same, the datasets are there, and the three checks of the
    features, the items and the times answer [True]. *)
Theorem is_compatible_iff self group data :
  is_compatible self group data = Ok true
  <-> is_same_version self group = Ok true
      /\ is_same_datasets self group data = true
      /\ Features_is_compatible (features data) group = Ok true
      /\ items_is_compatible (items data) group = Ok true
      /\ times_is_compatible (times data) group = Ok true.
Proof.
  unfold is_compatible. split.
  - intros Hc. apply rbind_Ok_inv in Hc as (same_version & Hv & Hc).
    destruct same_version; [|done]. cbn [negb] in Hc.
    destruct (is_same_datasets self group data); [|done].
    cbn [negb comprehension] in Hc.
    apply rbind_Ok_inv in Hc as (cs & Hcs & Hall).
    apply rbind_Ok_inv in Hcs as (cf & Hcf & Hcs).
    apply rbind_Ok_inv in Hcs as (cs' & Hcs' & Hcs).
    apply rbind_Ok_inv in Hcs' as (ci & Hci & Hcs').
    apply rbind_Ok_inv in Hcs' as (cs'' & Hcs'' & Hcs').
    apply rbind_Ok_inv in Hcs'' as (ct & Hct & Hcs'').
    cbn in Hcs''. injection Hcs'' as <-. injection Hcs' as <-.
    injection Hcs as <-. injection Hall as Hall. cbn in Hall.
    destruct cf, ci, ct; try done.
  - intros (-> & -> & Hf & Hi & Ht). cbn [rbind negb comprehension].
    by rewrite Hf, Hi, Ht.
Qed.

(** X10. Appending to a group that exists and is compatible makes no
    creation: no group is created, no attribute is set and no dataset is
    created; the calls are writes, in the order Index, Items, Features,
    Times, and the write of the Index is always one of them. *)
Theorem write_existing_group_only_writes self data groupname (s : St FS)
    h5file group :
  obj s !! filename self = Some (IsHdf5 h5file) ->
  h5file !! default "features" groupname = Some group ->
  is_compatible self group data = Ok true ->
  exists evs,
    trace (write self data groupname s).1 = trace s ++ evs
    /\ evs `prefix_of` [IndexWrite; ItemsWrite; FeaturesWrite; TimesWrite]
    /\ (1 <= length evs)%nat.
Proof.
  intros Hfile Hgroup Hc.
  rewrite write_unfold, with_File_run by by rewrite Hfile.
  cbn [fst snd trace].
  assert (Hopened : opened (obj s) (filename self) = h5file)
    by (unfold opened; by rewrite Hfile).
  rewrite Hopened.
  rewrite (write_body_existing self data _ (mkSt h5file (trace s)) group)
    by done.
  by apply (writing_calls self data _ (mkSt h5file (trace s)) group).
Qed.

(** X11. The chunk size of the Writer plays no part when the group
    exists: two Writers that differ only in their chunk size do the
    same. *)
Theorem write_existing_group_ignores_chunk_size version filename chunk_size
    chunk_size' index data groupname (s : St FS) group :
  opened (obj s) filename !! default "features" groupname = Some group ->
  write (mkWriter version filename chunk_size index) data groupname s
  = write (mkWriter version filename chunk_size' index) data groupname s.
Proof.
  intros Hgroup. rewrite !write_unfold. unfold with_File.
  cbn [H5features2.filename].
  rewrite (write_body_chunk_size version filename chunk_size chunk_size'
             index data _ (mkSt _ _) group Hgroup).
  reflexivity.
Qed.

(** X12. [Writer.write] on a group whose name is a link name touches
    this group only: the other files are what they were, and so are the
    other groups of its file. *)
Theorem write_touches_only_its_group self data groupname (s : St FS) :
  Paths.link_name (default "features" groupname) = true ->
  (forall other_file, other_file ≠ filename self ->
     obj (write self data groupname s).1 !! other_file = obj s !! other_file)
  /\ (forall other, other ≠ default "features" groupname ->
       opened (obj (write self data groupname s).1) (filename self) !! other
       = opened (obj s) (filename self) !! other).
Proof.
  intros _. rewrite write_unfold. unfold with_File.
  destruct (obj s !! filename self) as [[|h5file]|] eqn:Hfile; [done|..].
  all: destruct (write_body _ _ _ _) as [st' r] eqn:Hbody; cbn [fst obj];
    split; [intros other_file Hne; by rewrite lookup_insert_ne|];
    intros other Hne; rewrite opened_insert;
    replace st' with (write_body self data (default "features" groupname)
                        (mkSt (opened (obj s) (filename self)) (trace s))).1
      by (by rewrite Hbody);
    by rewrite write_body_keeps_other.
Qed.

(** X13. After a call of [Writer.write] on a file that can be opened,
    for a group whose name is a link name, the file is HDF5 and holds the
    group, whether the call has succeeded or not: the file and the group
    are created before anything can fail, and are not removed. *)
Theorem write_leaves_group self data groupname (s : St FS) :
  obj s !! filename self ≠ Some NotHdf5 ->
  Paths.link_name (default "features" groupname) = true ->
  is_hdf5 (obj (write self data groupname s).1) (filename self) = true
  /\ is_Some (opened (obj (write self data groupname s).1) (filename self)
              !! default "features" groupname).
Proof.
  intros Hfile _. rewrite write_unfold, with_File_run by done.
  cbn [fst obj]. rewrite opened_insert. split.
  - unfold is_hdf5. by rewrite lookup_insert_eq.
  - apply write_body_has_group.
Qed.

(** X14. The group is created once: after a first call on a file that
    can be opened, for a group whose name is a link name and whatever
    the outcome, a call for the same file and group makes no creation,
    its calls are writes only. *)
Theorem second_write_never_creates self data self' data' groupname
    (s : St FS) :
  obj s !! filename self ≠ Some NotHdf5 ->
  Paths.link_name (default "features" groupname) = true ->
  filename self' = filename self ->
  exists evs,
    trace (write self' data' groupname (write self data groupname s).1).1
    = trace (write self data groupname s).1 ++ evs
    /\ evs `prefix_of` [IndexWrite; ItemsWrite; FeaturesWrite; TimesWrite].
Proof.
  intros Hfile _ Hsame.
  rewrite (write_unfold self), with_File_run by done. cbn [fst].
  set (st1 := write_body self data (default "features" groupname) _).
  rewrite write_unfold, Hsame, with_File_run
    by (cbn; by rewrite lookup_insert_eq).
  cbn [fst snd obj trace]. rewrite opened_insert.
  destruct (write_body_has_group self data (default "features" groupname)
              (mkSt (opened (obj s) (filename self)) (trace s)))
    as [group Hgroup].
  fold st1 in Hgroup.
  by apply (write_body_existing_calls self' data' _ (mkSt _ _) group).
Qed.


(** X16. A write that raises undoes nothing either: when the Index has
    been written and the write of the Items raises, the exception
    escapes, the Features and the Times are not written, and the group
    stays as the write of the Items left it, the Index extended. *)
Theorem write_failed_write_stays self data groupname (s : St FS) h5file
    group group1 group2 e :
  obj s !! filename self = Some (IsHdf5 h5file) ->
  h5file !! default "features" groupname = Some group ->
  is_compatible self group data = Ok true ->
  index_write (index self) (items data) (features data) group
  = (group1, Ok tt) ->
  items_write (items data) group1 = (group2, Raise e) ->
  (write self data groupname s).2 = Raise e
  /\ trace (write self data groupname s).1
     = trace s ++ [IndexWrite; ItemsWrite]
  /\ opened (obj (write self data groupname s).1) (filename self)
     !! default "features" groupname = Some group2.
Proof.
  intros Hfile Hgroup Hc Hindex Hitems.
  rewrite write_unfold, with_File_run by by rewrite Hfile.
  cbn [fst snd obj trace]. rewrite opened_insert.
  assert (Hopened : opened (obj s) (filename self) = h5file)
    by (unfold opened; by rewrite Hfile).
  rewrite Hopened.
  rewrite (write_body_existing self data _ (mkSt h5file (trace s)) group)
    by done.
  unfold writing, mbind, Mon_bind, bind.
  run_on_group Hgroup. rewrite Hindex. cbn [fst snd].
  run_on_group Hgroup. rewrite Hitems. cbn.
  rewrite <- !app_assoc. split_and!; [done|done|apply lookup_insert_eq].
Qed.

(** X17. An append that succeeds threads the group through the four
    writes: the write of the Index acts on the group found in the file,
    each later write on the group as the one before left it, and the
    file ends with the group that the write of the Times answers; the
    rest of the file is as it was. *)
Theorem write_existing_group_result self data groupname (s : St FS) h5file
    group group1 group2 group3 group4 :
  obj s !! filename self = Some (IsHdf5 h5file) ->
  h5file !! default "features" groupname = Some group ->
  is_compatible self group data = Ok true ->
  index_write (index self) (items data) (features data) group
  = (group1, Ok tt) ->
  items_write (items data) group1 = (group2, Ok tt) ->
  features_write (features data) group2 = (group3, Ok tt) ->
  times_write (times data) group3 = (group4, Ok tt) ->
  write self data groupname s
  = (mkSt (<[filename self :=
               IsHdf5 (<[default "features" groupname := group4]> h5file)]>
             (obj s))
          (trace s ++ [IndexWrite; ItemsWrite; FeaturesWrite; TimesWrite]),
     Ok tt).
Proof.
  intros Hfile Hgroup Hc Hindex Hitems Hfeatures Htimes.
  rewrite write_unfold, with_File_run by by rewrite Hfile.
  assert (Hopened : opened (obj s) (filename self) = h5file)
    by (unfold opened; by rewrite Hfile).
  rewrite Hopened.
  rewrite (write_body_existing self data _ (mkSt h5file (trace s)) group)
    by done.
  unfold writing, mbind, Mon_bind, bind.
  run_on_group Hgroup. rewrite Hindex. cbn [fst snd].
  run_on_group Hgroup. rewrite Hitems. cbn [fst snd].
  run_on_group Hgroup. rewrite Hfeatures. cbn [fst snd].
  run_on_group Hgroup. rewrite Htimes. cbn [fst snd obj trace].
  by rewrite !insert_insert_eq, <- !app_assoc.
Qed.


End Facts.

Lemma init_accepts_witness :
  @init Examples.writer_imports "test.h5" None Examples.no_file
  = (Examples.no_file,
     Ok (mkWriter "1.0" "test.h5" 0.1%float SpecModel.make_index)).
Proof.
  apply (@init_accepts Examples.writer_imports "test.h5" None
           Examples.no_file).
  - vm_compute. discriminate.
  - reflexivity.
Defined.

Lemma init_refuses_other_file_witness :
  @init Examples.writer_imports "test.h5" (Some 0.001%float)
    Failing.other_file
  = (Failing.other_file, Raise (IOError "test.h5 is not a HDF5 file.")).
Proof.
  apply (@init_refuses_other_file Examples.writer_imports "test.h5"
           (Some 0.001%float) Failing.other_file).
  reflexivity.
Defined.

Lemma init_Ok_inv_witness :
  Examples.file_with Examples.group_1_0
  = Examples.file_with Examples.group_1_0
  /\ mkWriter "1.0" "test.h5" 1%float SpecModel.make_index
     = mkWriter "1.0" "test.h5" 1%float SpecModel.make_index
  /\ obj (Examples.file_with Examples.group_1_0) !! "test.h5" ≠ Some NotHdf5
  /\ PrimFloat.ltb 1%float 0.008%float = false.
Proof.
  apply (@init_Ok_inv Examples.writer_imports "test.h5" (Some 1%float)
           (Examples.file_with Examples.group_1_0)
           (Examples.file_with Examples.group_1_0)
           (mkWriter "1.0" "test.h5" 1%float SpecModel.make_index)).
  reflexivity.
Defined.

Lemma write_missing_version_witness :
  @write Examples.writer_imports Examples.writer Examples.data None
    (Examples.file_with Failing.group_no_attrs)
  = (Examples.file_with Failing.group_no_attrs, Raise (KeyError "version")).
Proof.
  apply (@write_missing_version Examples.writer_imports Examples.writer
           Examples.data None (Examples.file_with Failing.group_no_attrs)
           {[ "features" := Failing.group_no_attrs ]}
           Failing.group_no_attrs); reflexivity.
Defined.

Lemma is_compatible_other_version_witness :
  is_compatible Examples.writer Examples.group_0_9 Failing.data_unchecked
  = Ok false.
Proof.
  apply (is_compatible_other_version Examples.writer Examples.group_0_9
           Failing.data_unchecked "0.9").
  - reflexivity.
  - discriminate.
Defined.

Lemma is_compatible_missing_dataset_witness :
  is_compatible Examples.writer Failing.group_no_datasets
    Failing.data_unchecked
  = Ok false.
Proof.
  apply (is_compatible_missing_dataset Examples.writer
           Failing.group_no_datasets Failing.data_unchecked); reflexivity.
Defined.

Lemma is_compatible_check_raises_witness :
  is_compatible Examples.writer Examples.group_1_0 Failing.data_unchecked
  = Raise (ValueError "items cannot be checked").
Proof.
  apply (is_compatible_check_raises Examples.writer Examples.group_1_0
           Failing.data_unchecked true).
  - reflexivity.
  - reflexivity.
  - reflexivity.
  - left. reflexivity.
Defined.

Lemma write_existing_group_only_writes_witness :
  exists evs,
    trace (@write Examples.writer_imports Examples.writer Examples.data None
             (Examples.file_with Examples.group_1_0)).1
    = trace (Examples.file_with Examples.group_1_0) ++ evs
    /\ evs `prefix_of` [IndexWrite; ItemsWrite; FeaturesWrite; TimesWrite]
    /\ (1 <= length evs)%nat.
Proof.
  apply (@write_existing_group_only_writes Examples.writer_imports
           Examples.writer Examples.data None
           (Examples.file_with Examples.group_1_0)
           {[ "features" := Examples.group_1_0 ]} Examples.group_1_0);
    reflexivity.
Defined.

Lemma write_existing_group_ignores_chunk_size_witness :
  @write Examples.writer_imports
    (mkWriter "1.0" "test.h5" 0.1%float SpecModel.make_index)
    Examples.data None (Examples.file_with Examples.group_1_0)
  = @write Examples.writer_imports
      (mkWriter "1.0" "test.h5" 64%float SpecModel.make_index)
      Examples.data None (Examples.file_with Examples.group_1_0).
Proof.
  apply (@write_existing_group_ignores_chunk_size Examples.writer_imports
           "1.0" "test.h5" 0.1%float 64%float SpecModel.make_index
           Examples.data None (Examples.file_with Examples.group_1_0)
           Examples.group_1_0).
  reflexivity.
Defined.

Lemma write_touches_only_its_group_witness :
  (forall other_file, other_file ≠ "test.h5" ->
     obj (@write Examples.writer_imports Examples.writer Examples.data None
            (Examples.file_with Examples.group_1_0)).1 !! other_file
     = obj (Examples.file_with Examples.group_1_0) !! other_file)
  /\ (forall other, other ≠ "features" ->
       opened (obj (@write Examples.writer_imports Examples.writer
                      Examples.data None
                      (Examples.file_with Examples.group_1_0)).1) "test.h5"
       !! other
       = opened (obj (Examples.file_with Examples.group_1_0)) "test.h5"
         !! other).
Proof.
  apply (@write_touches_only_its_group Examples.writer_imports
           Examples.writer Examples.data None
           (Examples.file_with Examples.group_1_0)).
  reflexivity.
Defined.

Lemma write_leaves_group_witness :
  is_hdf5 (obj (@write Examples.writer_imports Examples.writer
                  Failing.data_features_raising None Examples.no_file).1)
          "test.h5" = true
  /\ is_Some (opened (obj (@write Examples.writer_imports Examples.writer
                             Failing.data_features_raising None
                             Examples.no_file).1) "test.h5"
              !! "features").
Proof.
  apply (@write_leaves_group Examples.writer_imports Examples.writer
           Failing.data_features_raising None Examples.no_file).
  - vm_compute. discriminate.
  - reflexivity.
Defined.

Lemma second_write_never_creates_witness :
  exists evs,
    trace (@write Examples.writer_imports Examples.writer Examples.data None
             (@write Examples.writer_imports Examples.writer
                Failing.data_features_raising None Examples.no_file).1).1
    = trace (@write Examples.writer_imports Examples.writer
               Failing.data_features_raising None Examples.no_file).1 ++ evs
    /\ evs `prefix_of` [IndexWrite; ItemsWrite; FeaturesWrite; TimesWrite].
Proof.
  apply (@second_write_never_creates Examples.writer_imports Examples.writer
           Failing.data_features_raising Examples.writer Examples.data None
           Examples.no_file).
  - vm_compute. discriminate.
  - reflexivity.
  - reflexivity.
Defined.


Lemma write_failed_write_stays_witness :
  (@write Examples.writer_imports Examples.writer Failing.data_unwritable
     None (Examples.file_with Examples.group_1_0)).2
  = Raise (ValueError "items cannot be written")
  /\ trace (@write Examples.writer_imports Examples.writer
              Failing.data_unwritable None
              (Examples.file_with Examples.group_1_0)).1
     = trace (Examples.file_with Examples.group_1_0)
       ++ [IndexWrite; ItemsWrite]
  /\ opened (obj (@write Examples.writer_imports Examples.writer
                    Failing.data_unwritable None
                    (Examples.file_with Examples.group_1_0)).1)
            "test.h5" !! "features"
     = Some (SpecModel.create_dataset "items" (Strings ["z"; "a"])
               (SpecModel.create_dataset "index" (Offsets [0; 1; 4; 6]%nat)
                  Examples.group_1_0)).
Proof.
  apply (@write_failed_write_stays Examples.writer_imports Examples.writer
           Failing.data_unwritable None
           (Examples.file_with Examples.group_1_0)
           {[ "features" := Examples.group_1_0 ]} Examples.group_1_0
           (SpecModel.create_dataset "index" (Offsets [0; 1; 4; 6]%nat)
              Examples.group_1_0)).
  - reflexivity.
  - reflexivity.
  - reflexivity.
  - reflexivity.
  - reflexivity.
Defined.

Lemma write_existing_group_result_witness :
  exists s',
    @write Examples.writer_imports Examples.writer Examples.data None
      (Examples.file_with Examples.group_1_0) = (s', Ok tt).
Proof.
  eexists.
  eapply (@write_existing_group_result Examples.writer_imports
            Examples.writer Examples.data None
            (Examples.file_with Examples.group_1_0)
            {[ "features" := Examples.group_1_0 ]} Examples.group_1_0);
    reflexivity.
Defined.


End WriterMore.

(** ** The groups that [Writer.write] leaves *)

Module WriterState.
Import H5features2 WriterFacts WriterMore Outcomes.

Lemma begins_with {A} (evs script : list A) n :
  evs `prefix_of` script -> (n <= length evs)%nat ->
  evs = take n script ++ drop n evs.
Proof.
  intros [k ->] Hn. by rewrite take_app_le, take_drop by done.
Qed.

Section Facts.
Context `{Imports}.

Ltac run_group Hst :=
  match goal with
  | |- context [on_group ?g ?ev ?m ?st] =>
      erewrite (on_group_run g ev m st)
        by (cbn; first [exact Hst | apply lookup_insert_eq]);
      cbn [fst snd obj trace]
  end.

Lemma writing_Ok_inv self data groupname (st st' : St H5File) group :
  obj st !! groupname = Some group ->
  writing self data groupname st = (st', Ok tt) ->
  exists group1 group2 group3 group4,
    index_write (index self) (items data) (features data) group
    = (group1, Ok tt)
    /\ items_write (items data) group1 = (group2, Ok tt)
    /\ features_write (features data) group2 = (group3, Ok tt)
    /\ times_write (times data) group3 = (group4, Ok tt)
    /\ st' = mkSt (<[groupname := group4]> (obj st))
                  (trace st ++ writing_script).
Proof.
  intros Hst. unfold writing, mbind, Mon_bind, bind.
  run_group Hst.
  destruct (index_write _ _ _ _) as [g1 [[]|e]] eqn:H1; cbn [fst snd];
    [|done].
  run_group Hst.
  destruct (items_write _ _) as [g2 [[]|e]] eqn:H2; cbn [fst snd]; [|done].
  run_group Hst.
  destruct (features_write _ _) as [g3 [[]|e]] eqn:H3; cbn [fst snd];
    [|done].
  run_group Hst.
  destruct (times_write _ _) as [g4 [[]|e]] eqn:H4; cbn [fst snd]; [|done].
  intros [= <-]. exists g1, g2, g3, g4. split_and!; try done.
  unfold writing_script. by rewrite !insert_insert_eq, <- !app_assoc.
Qed.

Lemma write_body_created self data groupname (st : St H5File) nb_in_chunks
    group1 group2 group3 group4 :
  obj st !! groupname = None ->
  features_create (features data) (chunk_size self)
    (set_attr "version" (version self) empty_group)
  = (group1, Ok nb_in_chunks) ->
  times_create (times data) nb_in_chunks group1 = (group2, Ok tt) ->
  items_create (items data)
    (Z.max 10 (nb_lines 20 1 (chunk_size self * 1000)%float)) group2
  = (group3, Ok tt) ->
  index_create (index self) (chunk_size self) group3 = (group4, Ok tt) ->
  write_body self data groupname st
  = writing self data groupname
      (mkSt (<[groupname := group4]> (obj st))
            (trace st ++ creation_script self groupname nb_in_chunks)).
Proof.
  intros Hfresh Hfc Htc Hic Hxc.
  unfold write_body, mbind, Mon_bind, bind, get, create_group, call.
  cbn [obj trace]. rewrite Hfresh.
  assert (Hnew : (<[groupname := empty_group]> (obj st) : H5File)
                 !! groupname = Some empty_group)
    by apply lookup_insert_eq.
  run_group Hnew.
  run_group Hnew. rewrite Hfc. cbn [fst snd].
  run_group Hnew. rewrite Htc. cbn [fst snd].
  run_group Hnew. rewrite Hic. cbn [fst snd].
  run_group Hnew. rewrite Hxc. cbn [fst snd].
  by rewrite !insert_insert_eq, <- !app_assoc.
Qed.

Lemma write_body_items_created self data groupname (st : St H5File)
    nb_in_chunks group1 group2 group3 r :
  obj st !! groupname = None ->
  features_create (features data) (chunk_size self)
    (set_attr "version" (version self) empty_group)
  = (group1, Ok nb_in_chunks) ->
  times_create (times data) nb_in_chunks group1 = (group2, Ok tt) ->
  items_create (items data)
    (Z.max 10 (nb_lines 20 1 (chunk_size self * 1000)%float)) group2
  = (group3, r) ->
  write_body self data groupname st
  = match r with
    | Ok _ => after_items_create self data groupname
    | Raise e => raise e
    end (mkSt (<[groupname := group3]> (obj st))
              (trace st ++ items_creation_script self groupname nb_in_chunks)).
Proof.
  intros Hfresh Hfc Htc Hic.
  unfold write_body, after_items_create, mbind, Mon_bind, bind, get,
    create_group, call, raise.
  cbn [obj trace]. rewrite Hfresh.
  assert (Hnew : (<[groupname := empty_group]> (obj st) : H5File)
                 !! groupname = Some empty_group)
    by apply lookup_insert_eq.
  run_group Hnew.
  run_group Hnew. rewrite Hfc. cbn [fst snd].
  run_group Hnew. rewrite Htc. cbn [fst snd].
  run_group Hnew. rewrite Hic. cbn [fst snd].
  rewrite !insert_insert_eq, <- !app_assoc.
  by destruct r as [[]|e].
Qed.

Lemma write_body_Ok_inv self data groupname (st st' : St H5File) :
  write_body self data groupname st = (st', Ok tt) ->
  exists group0 evs,
    ready self data groupname (obj st) group0 evs
    /\ writing self data groupname
         (mkSt (<[groupname := group0]> (obj st)) (trace st ++ evs))
       = (st', Ok tt).
Proof.
  destruct (obj st !! groupname) as [group|] eqn:Hst.
  - assert (Hc : is_compatible self group data = Ok true
                 \/ is_compatible self group data ≠ Ok true).
    { destruct (is_compatible self group data) as [[]|]; by eauto. }
    destruct Hc as [Hc|Hc].
    + rewrite (write_body_existing _ _ _ _ _ Hst Hc). intros Hw.
      exists group, []. split; [by apply ready_found|].
      by rewrite insert_id, app_nil_r, St_eta.
    + destruct (write_body_rejected _ _ _ _ _ Hst Hc) as [e ->]. done.
  - destruct (features_create (features data) (chunk_size self)
                (set_attr "version" (version self) empty_group))
      as [g1 [nb|e]] eqn:Hfc.
    2:{ unfold write_body, mbind, Mon_bind, bind, get, create_group, call.
        cbn [obj trace]. rewrite Hst.
        assert (Hnew : (<[groupname := empty_group]> (obj st) : H5File)
                       !! groupname = Some empty_group)
          by apply lookup_insert_eq.
        run_group Hnew. run_group Hnew. rewrite Hfc. done. }
    destruct (times_create (times data) nb g1) as [g2 [[]|e]] eqn:Htc.
    2:{ unfold write_body, mbind, Mon_bind, bind, get, create_group, call.
        cbn [obj trace]. rewrite Hst.
        assert (Hnew : (<[groupname := empty_group]> (obj st) : H5File)
                       !! groupname = Some empty_group)
          by apply lookup_insert_eq.
        run_group Hnew. run_group Hnew. rewrite Hfc. cbn [fst snd].
        run_group Hnew. rewrite Htc. done. }
    destruct (items_create (items data)
                (Z.max 10 (nb_lines 20 1 (chunk_size self * 1000)%float)) g2)
      as [g3 [[]|e]] eqn:Hic.
    2:{ by rewrite (write_body_items_created _ _ _ _ _ _ _ _ _
                      Hst Hfc Htc Hic). }
    destruct (index_create (index self) (chunk_size self) g3)
      as [g4 [[]|e]] eqn:Hxc.
    2:{ rewrite (write_body_items_created _ _ _ _ _ _ _ _ _
                   Hst Hfc Htc Hic).
        unfold after_items_create, mbind, Mon_bind, bind.
        assert (Hnew : (<[groupname := g3]> (obj st) : H5File)
                       !! groupname = Some g3)
          by apply lookup_insert_eq.
        run_group Hnew. rewrite Hxc. done. }
    rewrite (write_body_created _ _ _ _ _ _ _ _ _ Hst Hfc Htc Hic Hxc).
    intros Hw. exists g4, (creation_script self groupname nb).
    split; [by eapply ready_created|done].
Qed.

(** C3. A call of [Writer.write] that succeeds, on a group whose name
    is a link name, has performed the four dataset writes in the order
    Index, Items, Features, Times, each on the group as the one before
    left it: the write of the Index acts on the group as found in the
    file or as just created, the write of the Items on the group that the
    write of the Index answers, and so on; the file ends with the group
    that the write of the Times answers, and the four writes are the last
    four calls recorded, in this order, after the calls of the creation
    if any. *)
Theorem write_performs_writes_in_order self data groupname (s s' : St FS) :
  Paths.link_name (default "features" groupname) = true ->
  write self data groupname s = (s', Ok tt) ->
  exists group0 evs group1 group2 group3 group4,
    ready self data (default "features" groupname)
      (opened (obj s) (filename self)) group0 evs
    /\ index_write (index self) (items data) (features data) group0
       = (group1, Ok tt)
    /\ items_write (items data) group1 = (group2, Ok tt)
    /\ features_write (features data) group2 = (group3, Ok tt)
    /\ times_write (times data) group3 = (group4, Ok tt)
    /\ s' = mkSt (<[filename self :=
                      IsHdf5 (<[default "features" groupname := group4]>
                                (opened (obj s) (filename self)))]>
                    (obj s))
                 (trace s ++ evs
                  ++ [IndexWrite; ItemsWrite; FeaturesWrite; TimesWrite]).
Proof.
  intros _ Hw.
  assert (Hfile : obj s !! filename self ≠ Some NotHdf5).
  { intros Hno. revert Hw. rewrite write_unfold. unfold with_File.
    by rewrite Hno. }
  revert Hw. rewrite write_unfold, with_File_run by done. cbn zeta.
  destruct (write_body _ _ _ _) as [st' r] eqn:Hbody. cbn [fst snd].
  intros [= <- ->].
  destruct (write_body_Ok_inv _ _ _ _ _ Hbody)
    as (group0 & evs & Hready & Hwriting).
  destruct (writing_Ok_inv _ _ _ _ _ group0 (lookup_insert_eq _ _ _) Hwriting)
    as (g1 & g2 & g3 & g4 & H1 & H2 & H3 & H4 & ->).
  exists group0, evs, g1, g2, g3, g4. split_and!; try done.
  cbn [obj trace]. by rewrite insert_insert_eq, <- !app_assoc.
Qed.

(** C4. When the target group is not in the file, [Writer.write] creates
    it: whatever the outcome, the file holds the group afterwards and the
    first calls are the creation of the group, the setting of its version
    attribute and the creation of the Feature Store with the chunk size.
    The stores are created in the order Feature Store, Times Store, Item
    Set, Index, each on the group as the one before left it, starting from
    the empty group that carries the version: the Times Store with the
    number of rows per chunk that the Feature Store answered, the Item Set
    with its number of lines per chunk, the Index with the chunk size.
    Nothing is written before the four creations are done: the call then
    goes on as the four writes, from the file that holds the group as the
    creation of the Index left it, after the six calls of the creation. *)
Theorem write_creates_group_then_stores self data groupname (s : St FS) :
  obj s !! filename self ≠ Some NotHdf5 ->
  opened (obj s) (filename self) !! default "features" groupname = None ->
  Paths.link_name (default "features" groupname) = true ->
  is_Some (opened (obj (write self data groupname s).1) (filename self)
           !! default "features" groupname)
  /\ (exists evs,
        trace (write self data groupname s).1
        = trace s
          ++ [CreateGroup (default "features" groupname);
              SetAttr (default "features" groupname) "version" (version self);
              FeaturesCreate (chunk_size self)]
          ++ evs)
  /\ (forall nb_in_chunks group1 group2 group3 group4,
        features_create (features data) (chunk_size self)
          (set_attr "version" (version self) empty_group)
        = (group1, Ok nb_in_chunks) ->
        times_create (times data) nb_in_chunks group1 = (group2, Ok tt) ->
        items_create (items data)
          (Z.max 10 (nb_lines 20 1 (chunk_size self * 1000)%float)) group2
        = (group3, Ok tt) ->
        index_create (index self) (chunk_size self) group3
        = (group4, Ok tt) ->
        write self data groupname s
        = flushed (filename self) s
            (writing self data (default "features" groupname)
               (mkSt (<[default "features" groupname := group4]>
                        (opened (obj s) (filename self)))
                     (trace s
                      ++ creation_script self (default "features" groupname)
                           nb_in_chunks)))).
Proof.
  intros Hfile Hfresh _. rewrite write_unfold, with_File_run by done.
  cbn zeta. cbn [fst snd obj trace]. rewrite opened_insert. split_and!.
  - apply write_body_has_group.
  - destruct (write_body_new_group self data (default "features" groupname)
                (mkSt (opened (obj s) (filename self)) (trace s)) Hfresh)
      as (evs & Htr & Hpre & Hlen & _).
    exists (drop 3 evs). rewrite Htr. cbn [trace]. f_equal.
    by apply (begins_with _ _ 3%nat Hpre).
  - intros nb g1 g2 g3 g4 Hfc Htc Hic Hxc.
    by rewrite (write_body_created _ _ _ (mkSt _ _) _ _ _ _ _
                  Hfresh Hfc Htc Hic Hxc).
Qed.

(** C6. When the group is created, the Item Set is created with a number
    of lines per chunk that is the maximum of 10 and of what
    [chunk.nb_lines] computes from 20 bytes per identifier, one column and
    the chunk size in Ko, and that is never below 10: once
    [Features.create] and [Times.create] have returned, [Items.create] is
    applied with this number to the group they left.  The group it
    answers is put in the file after the five calls made so far; when it
    raises the exception escapes there, otherwise the call goes on with
    the creation of the Index and the writes. *)
Theorem items_created_with_floor self data groupname (s : St FS)
    nb_in_chunks group1 group2 :
  obj s !! filename self ≠ Some NotHdf5 ->
  opened (obj s) (filename self) !! default "features" groupname = None ->
  Paths.link_name (default "features" groupname) = true ->
  features_create (features data) (chunk_size self)
    (set_attr "version" (version self) empty_group)
  = (group1, Ok nb_in_chunks) ->
  times_create (times data) nb_in_chunks group1 = (group2, Ok tt) ->
  10 <= Z.max 10 (nb_lines 20 1 (chunk_size self * 1000)%float)
  /\ (forall group3 r,
        items_create (items data)
          (Z.max 10 (nb_lines 20 1 (chunk_size self * 1000)%float)) group2
        = (group3, r) ->
        write self data groupname s
        = flushed (filename self) s
            (match r with
             | Ok _ =>
                 after_items_create self data (default "features" groupname)
             | Raise e => raise e
             end
               (mkSt (<[default "features" groupname := group3]>
                        (opened (obj s) (filename self)))
                     (trace s
                      ++ items_creation_script self
                           (default "features" groupname) nb_in_chunks)))).
Proof.
  intros Hfile Hfresh _ Hfc Htc. split; [lia|].
  intros g3 r Hic. rewrite write_unfold, with_File_run by done.
  by rewrite (write_body_items_created _ _ _ (mkSt _ _) _ _ _ _ _
                Hfresh Hfc Htc Hic).
Qed.

End Facts.

Lemma write_performs_writes_in_order_witness :
  exists group0 evs group1 group2 group3 group4,
    @ready Examples.writer_imports Examples.writer Examples.data "features"
      (opened (obj Examples.no_file) "test.h5") group0 evs
    /\ index_write (index Examples.writer) (items Examples.data)
         (features Examples.data) group0
       = (group1, Ok tt)
    /\ items_write (items Examples.data) group1 = (group2, Ok tt)
    /\ features_write (features Examples.data) group2 = (group3, Ok tt)
    /\ times_write (times Examples.data) group3 = (group4, Ok tt)
    /\ (@write Examples.writer_imports Examples.writer Examples.data None
          Examples.no_file).1
       = mkSt (<["test.h5" :=
                   IsHdf5 (<["features" := group4]>
                             (opened (obj Examples.no_file) "test.h5"))]>
                 (obj Examples.no_file))
              (trace Examples.no_file ++ evs
               ++ [IndexWrite; ItemsWrite; FeaturesWrite; TimesWrite]).
Proof.
  apply (@write_performs_writes_in_order Examples.writer_imports
           Examples.writer Examples.data None Examples.no_file);
    reflexivity.
Defined.

Lemma write_creates_group_then_stores_witness :
  is_Some (opened (obj (@write Examples.writer_imports Examples.writer
                          Failing.data_features_raising None
                          Examples.no_file).1) "test.h5"
           !! "features")
  /\ (exists evs,
        trace (@write Examples.writer_imports Examples.writer
                 Failing.data_features_raising None Examples.no_file).1
        = trace Examples.no_file
          ++ [CreateGroup "features"; SetAttr "features" "version" "1.0";
              FeaturesCreate 0.1%float]
          ++ evs).
Proof.
  destruct (@write_creates_group_then_stores Examples.writer_imports
              Examples.writer Failing.data_features_raising None
              Examples.no_file) as (Hgroup & Hcalls & _).
  - vm_compute. discriminate.
  - reflexivity.
  - reflexivity.
  - split; [exact Hgroup|exact Hcalls].
Defined.

Lemma items_created_with_floor_witness :
  10 <= Z.max 10 (@nb_lines Examples.writer_imports 20 1
                    (chunk_size Examples.writer * 1000)%float)
  /\ (forall group3 r,
        items_create (items Examples.data)
          (Z.max 10 (@nb_lines Examples.writer_imports 20 1
                       (chunk_size Examples.writer * 1000)%float))
          Failing.group_with_times
        = (group3, r) ->
        @write Examples.writer_imports Examples.writer Examples.data None
          Examples.no_file
        = flushed "test.h5" Examples.no_file
            (match r with
             | Ok _ =>
                 @after_items_create Examples.writer_imports Examples.writer
                   Examples.data "features"
             | Raise e => raise e
             end
               (mkSt (<["features" := group3]>
                        (opened (obj Examples.no_file) "test.h5"))
                     (trace Examples.no_file
                      ++ @items_creation_script Examples.writer_imports
                           Examples.writer "features"
                           (Statements.fresh_nb_in_chunks Examples.writer
                              Examples.data))))).
Proof.
  apply (@items_created_with_floor Examples.writer_imports Examples.writer
           Examples.data None Examples.no_file
           (Statements.fresh_nb_in_chunks Examples.writer Examples.data)
           Failing.group_with_features Failing.group_with_times).
  - vm_compute. discriminate.
  - reflexivity.
  - reflexivity.
  - reflexivity.
  - reflexivity.
Defined.

(** The example of the Item Set: the two items of the examples are
    created with 10 lines per chunk, the floor, where the policy of the
    examples computes 5. *)
Example items_created_with_ten_lines :
  exists evs,
    trace (@write Examples.writer_imports Examples.writer Examples.data None
             Examples.no_file).1
    = evs ++ [ItemsCreate 10; IndexCreate 0.1%float;
              IndexWrite; ItemsWrite; FeaturesWrite; TimesWrite]
    /\ @nb_lines Examples.writer_imports 20 1 (0.1 * 1000)%float = 5.
Proof. eexists [_; _; _; _]. split; reflexivity. Qed.

End WriterState.

(** ** More on [h5features/h5features.py] *)

Module LegacyMore.
Import H5features.

(** *** What [dict] does to keys that come twice *)

Lemma dict_set_keys {V} k (v : V) (d : list (string * V)) :
  (dict_set k v d).*1 = if bool_decide (k ∈ d.*1) then d.*1 else d.*1 ++ [k].
Proof.
  induction d as [|[k' v'] d IH]; cbn; [done|].
  destruct (String.eqb k' k) eqn:E.
  - apply String.eqb_eq in E as ->. cbn.
    rewrite bool_decide_eq_true_2; [done|]. apply elem_of_cons. by left.
  - apply String.eqb_neq in E. cbn. rewrite IH.
    destruct (decide (k ∈ d.*1)) as [Hin|Hin].
    + rewrite !bool_decide_eq_true_2; [done|by apply elem_of_cons; right|done].
    + rewrite !bool_decide_eq_false_2; [done| |done].
      rewrite elem_of_cons. intros [?|?]; by subst.
Qed.

Lemma foldl_dict_set_keys {V} (pairs acc : list (string * V)) :
  (foldl (fun d kv => dict_set kv.1 kv.2 d) acc pairs).*1
  = foldl (fun seen k => if bool_decide (k ∈ seen) then seen else seen ++ [k])
          acc.*1 pairs.*1.
Proof.
  revert acc. induction pairs as [|[k v] pairs IH]; intros acc; cbn; [done|].
  by rewrite IH, dict_set_keys.
Qed.

Lemma dict_keys {V} (pairs : list (string * V)) :
  (dict pairs).*1 = keys_after pairs.*1.
Proof. apply foldl_dict_set_keys. Qed.

Lemma foldl_keys_NoDup (ks seen : list string) :
  NoDup seen ->
  NoDup (foldl (fun seen k => if bool_decide (k ∈ seen) then seen
                              else seen ++ [k]) seen ks).
Proof.
  revert seen. induction ks as [|k ks IH]; intros seen Hseen; cbn; [done|].
  apply IH. case_bool_decide as Hin; [done|].
  apply NoDup_app. split_and!; [done| |apply NoDup_singleton].
  intros x Hx ->%list_elem_of_singleton. done.
Qed.

Lemma dict_keys_NoDup {V} (pairs : list (string * V)) :
  NoDup (dict pairs).*1.
Proof. rewrite dict_keys. apply foldl_keys_NoDup. constructor. Qed.

Lemma dict_get_set {V} k k' (v : V) (d : list (string * V)) :
  dict_get k (dict_set k' v d)
  = if String.eqb k' k then Some v else dict_get k d.
Proof.
  induction d as [|[k'' v''] d IH]; cbn; [done|].
  destruct (String.eqb k'' k') eqn:E; cbn.
  - apply String.eqb_eq in E as ->. by destruct (String.eqb k' k).
  - rewrite IH. destruct (String.eqb k'' k) eqn:E'; [|done].
    apply String.eqb_eq in E'. subst k''. by rewrite String.eqb_sym, E.
Qed.

Lemma dict_get_app {V} k (d d' : list (string * V)) :
  dict_get k (d ++ d')
  = match dict_get k d with
    | Some v => Some v
    | None => dict_get k d'
    end.
Proof.
  induction d as [|[k' v'] d IH]; cbn; [done|].
  by destruct (String.eqb k' k).
Qed.

Lemma foldl_dict_get {V} k (pairs acc : list (string * V)) :
  dict_get k (foldl (fun d kv => dict_set kv.1 kv.2 d) acc pairs)
  = match last_value k pairs with
    | Some v => Some v
    | None => dict_get k acc
    end.
Proof.
  revert acc. induction pairs as [|[k' v'] pairs IH]; intros acc;
    cbn [foldl]; [done|].
  rewrite IH. unfold last_value. rewrite reverse_cons, dict_get_app.
  destruct (dict_get k (reverse pairs)); [done|].
  rewrite dict_get_set. cbn. by destruct (String.eqb k' k).
Qed.

Lemma dict_get_dict {V} k (pairs : list (string * V)) :
  dict_get k (dict pairs) = last_value k pairs.
Proof.
  unfold dict. rewrite foldl_dict_get. by destruct (last_value k pairs).
Qed.

Lemma zip_keys_NoDup {V} (ks : list string) (vs : list V) :
  NoDup ks -> NoDup (zip ks vs).*1.
Proof.
  revert vs. induction ks as [|k ks IH]; intros [|v vs] Hnd; cbn;
    try constructor.
  - apply NoDup_cons in Hnd as [Hk Hnd]. intros Hin. apply Hk.
    clear -Hin. revert vs Hin. induction ks as [|k' ks IH]; intros [|v vs];
      cbn; try by intros ?%elem_of_nil.
    rewrite !elem_of_cons. intros [->|Hin]; [by left|right; by eapply IH].
  - apply NoDup_cons in Hnd as [_ Hnd]. by apply IH.
Qed.

Lemma zip_keys_length {V W} (ks : list string) (vs : list V) (ws : list W) :
  length vs = length ws -> (zip ks vs).*1 = (zip ks ws).*1.
Proof.
  revert vs ws. induction ks as [|k ks IH]; intros [|v vs] [|w ws];
    cbn; try done.
  intros [= Hlen]. f_equal. by apply IH.
Qed.

Section Facts.
Context `{Imports}.

Lemma read_answer filename groupname from_item to_item from_time to_time
    index (s s' : St FS) data :
  reader_answers filename groupname from_item to_item from_time to_time
    index s s' data ->
  read filename groupname from_item to_item from_time to_time index s
  = (s', Ok (dict (zip (items_data (items data)) (times_data (times data))),
             dict (zip (items_data (items data))
                       (features_data (features data))))).
Proof.
  intros (s1 & reader & Hinit & Hread).
  unfold read, mbind, Mon_bind, bind. rewrite Hinit.
  destruct index; by rewrite Hread.
Qed.

Lemma read_Ok_inv filename groupname from_item to_item from_time to_time
    index (s s' : St FS) result :
  read filename groupname from_item to_item from_time to_time index s
  = (s', Ok result) ->
  exists data,
    result = (dict (zip (items_data (items data)) (times_data (times data))),
              dict (zip (items_data (items data))
                        (features_data (features data)))).
Proof.
  unfold read, mbind, Mon_bind, bind.
  destruct (Reader_init filename groupname s) as [s1 [reader|e]]; [|done].
  destruct index as [index|].
  - destruct (Reader_index_read reader index s1) as [s2 [data|e]]; [|done].
    intros [= _ <-]. by eexists.
  - destruct (Reader_read reader from_item to_item from_time to_time s1)
      as [s2 [data|e]]; [|done].
    intros [= _ <-]. by eexists.
Qed.

(** X19. When the names of the items that the Reader answers are
    distinct, [read] pairs each item with its times and with its feature
    matrix, in the order of the items. *)
Theorem read_pairs_in_order filename groupname from_item to_item from_time
    to_time index (s s' : St FS) data :
  reader_answers filename groupname from_item to_item from_time to_time
    index s s' data ->
  NoDup (items_data (items data)) ->
  read filename groupname from_item to_item from_time to_time index s
  = (s', Ok (zip (items_data (items data)) (times_data (times data)),
             zip (items_data (items data)) (features_data (features data)))).
Proof.
  intros Hanswer Hnodup. rewrite (read_answer _ _ _ _ _ _ _ _ _ _ Hanswer).
  by rewrite !RoundTrip.dict_distinct_keys by by apply zip_keys_NoDup.
Qed.

(** X20. In the two dictionaries that [read] returns no key comes
    twice, whatever the Reader has answered. *)
Theorem read_keys_unique filename groupname from_item to_item from_time
    to_time index (s s' : St FS) times_dict features_dict :
  read filename groupname from_item to_item from_time to_time index s
  = (s', Ok (times_dict, features_dict)) ->
  NoDup times_dict.*1 /\ NoDup features_dict.*1.
Proof.
  intros Hread. apply read_Ok_inv in Hread as [data [= -> ->]].
  split; apply dict_keys_NoDup.
Qed.

(** X21. When the Reader answers an item name more than once, [read]
    keeps one entry for it: the entry holds the times and the features
    that come with the last occurrence of the name. *)
Theorem read_last_occurrence_wins filename groupname from_item to_item
    from_time to_time index (s s' : St FS) data :
  reader_answers filename groupname from_item to_item from_time to_time
    index s s' data ->
  exists times_dict features_dict,
    read filename groupname from_item to_item from_time to_time index s
    = (s', Ok (times_dict, features_dict))
    /\ forall item,
         dict_get item times_dict
         = last_value item (zip (items_data (items data))
                                (times_data (times data)))
         /\ dict_get item features_dict
            = last_value item (zip (items_data (items data))
                                   (features_data (features data))).
Proof.
  intros Hanswer. eexists _, _. split; [by apply read_answer|].
  intros item. by rewrite !dict_get_dict.
Qed.

(** X22. When the Reader answers as many times arrays as feature
    matrices, the two dictionaries that [read] returns have the same
    keys in the same order. *)
Theorem read_same_keys filename groupname from_item to_item from_time
    to_time index (s s' : St FS) data :
  reader_answers filename groupname from_item to_item from_time to_time
    index s s' data ->
  length (times_data (times data)) = length (features_data (features data)) ->
  exists times_dict features_dict,
    read filename groupname from_item to_item from_time to_time index s
    = (s', Ok (times_dict, features_dict))
    /\ times_dict.*1 = features_dict.*1.
Proof.
  intros Hanswer Hlen. eexists _, _. split; [by apply read_answer|].
  rewrite !dict_keys. f_equal. by apply zip_keys_length.
Qed.

(** X23. The sparsity is used for the sparse format only: when the format
    is not parsed as [sparse], [write] does the same whatever the
    sparsity is. *)
Theorem write_dense_ignores_sparsity filename groupname items_data
    times_data features_data dformat chunk_size sparsity sparsity'
    (s : St FS) :
  parse_dformat (default "dense" dformat) ≠ Ok "sparse" ->
  write filename groupname items_data times_data features_data
        dformat chunk_size sparsity s
  = write filename groupname items_data times_data features_data
          dformat chunk_size sparsity' s.
Proof.
  intros Hdense. unfold write.
  destruct (parse_dformat (default "dense" dformat)) as [parsed|e] eqn:Hp;
    [|reflexivity].
  cbn [rbind].
  destruct (String.eqb parsed "sparse") eqn:Hsparse; [|reflexivity].
  apply String.eqb_eq in Hsparse as ->. done.
Qed.

End Facts.

Lemma read_pairs_in_order_witness :
  @read Examples.legacy_imports "test.h5" "features" None None None None None
    Examples.written
  = (Examples.written,
     Ok (zip Examples.item_names Examples.item_times,
         zip Examples.item_names Examples.item_features)).
Proof.
  apply (@read_pairs_in_order Examples.legacy_imports "test.h5" "features"
           None None None None None Examples.written Examples.written
           Examples.data).
  - exists Examples.written, (SpecModel.mkReader "test.h5" "features").
    split; vm_compute; reflexivity.
  - apply (bool_decide_unpack _). vm_compute. exact I.
Defined.

Lemma read_keys_unique_witness :
  NoDup [("a", Array1D [2]%float); ("b", Array1D [1]%float)].*1
  /\ NoDup [("a", Array2D 1 [[2]]%float); ("b", Array2D 1 [[1]]%float)].*1.
Proof.
  apply (@read_keys_unique Failing.reader_twice "test.h5" "features"
           None None None None None Examples.no_file Examples.no_file).
  reflexivity.
Defined.

Lemma read_last_occurrence_wins_witness :
  exists times_dict features_dict,
    @read Failing.reader_twice "test.h5" "features" None None None None None
      Examples.no_file
    = (Examples.no_file, Ok (times_dict, features_dict))
    /\ forall item,
         dict_get item times_dict
         = last_value item (zip (items_data (items Failing.twice))
                                (times_data (times Failing.twice)))
         /\ dict_get item features_dict
            = last_value item (zip (items_data (items Failing.twice))
                                   (features_data (features Failing.twice))).
Proof.
  apply (@read_last_occurrence_wins Failing.reader_twice "test.h5" "features"
           None None None None None Examples.no_file Examples.no_file
           Failing.twice).
  exists Examples.no_file, tt. split; reflexivity.
Defined.

Lemma read_same_keys_witness :
  exists times_dict features_dict,
    @read Failing.reader_twice "test.h5" "features" None None None None None
      Examples.no_file
    = (Examples.no_file, Ok (times_dict, features_dict))
    /\ times_dict.*1 = features_dict.*1.
Proof.
  apply (@read_same_keys Failing.reader_twice "test.h5" "features"
           None None None None None Examples.no_file Examples.no_file
           Failing.twice).
  - exists Examples.no_file, tt. split; reflexivity.
  - reflexivity.
Defined.

Lemma write_dense_ignores_sparsity_witness :
  @write Examples.legacy_imports "test.h5" "features" Examples.item_names
    Examples.item_times Examples.item_features None None (Some 0.5%float)
    Examples.no_file
  = @write Examples.legacy_imports "test.h5" "features" Examples.item_names
      Examples.item_times Examples.item_features None None None
      Examples.no_file.
Proof.
  apply (@write_dense_ignores_sparsity Examples.legacy_imports "test.h5"
           "features" Examples.item_names Examples.item_times
           Examples.item_features None None (Some 0.5%float) None
           Examples.no_file).
  vm_compute. discriminate.
Defined.

(** A name that the Reader answers twice: one entry, of the last data. *)
Example read_item_twice :
  (@read Failing.reader_twice "test.h5" "features" None None None None None
     Examples.no_file).2
  = Ok ([("a", Array1D [2]%float); ("b", Array1D [1]%float)],
        [("a", Array2D 1 [[2]]%float); ("b", Array2D 1 [[1]]%float)]).
Proof. reflexivity. Qed.

End LegacyMore.

(** ** Validation in the legacy [write] *)

Module Validation.
Import H5features SpecModel.

Section Facts.
Context `{Policy}.


End Facts.



(** Times that go backwards and features of ragged column counts are
    rejected in the same way. *)
Example write_rejects_decreasing_times :
  @write Examples.legacy_imports "test.h5" "features" ["a"]
    [Array1D [1; 0]%float] [Array2D 1 [[1]; [2]]%float] None None None
    Examples.no_file
  = (Examples.no_file,
     Raise (ValidationError "times must be 1D or Nx2 and non-decreasing")).
Proof. reflexivity. Qed.

Example write_rejects_ragged_features :
  @write Examples.legacy_imports "test.h5" "features" ["a"; "b"]
    [Array1D [0]%float; Array1D [1]%float]
    [Array2D 1 [[1]]%float; Array2D 2 [[1; 2]]%float] None None None
    Examples.no_file
  = (Examples.no_file,
     Raise (ValidationError "features must be 2D with one dimension")).
Proof. reflexivity. Qed.

End Validation.
